(** * Room-scoped broadcast engine of the collaborative whiteboard server

    A shallow embedding of [src/server.js]: the three process-wide maps
    ([rooms], [users], [drawings]), the per-connection closure variables
    ([currentRoom], [usernameServer]), the room-management and broadcast
    functions, and the message / close handlers of a connection.

    Modelling choices, all read off the source:
    - a [ws] object is a natural number (object identity);
    - a JS [Set] is a duplicate-free list in insertion order, which is the
      order [forEach] and [Array.from] enumerate it in;
    - a JS [Map] keyed by room id is a [gmap string _];
    - the message fields [type], [roomId], [username] and [text] are strings
      when present ([None] is [undefined]); every other field of a message
      is carried along opaquely in [data_rest];
    - handler code runs in a state monad that also collects what was written
      to the sockets and records whether an exception escaped. *)

From stdpp Require Import gmap strings list fin_maps.
From Stdlib Require Import ZArith.

Local Open Scope string_scope.
Local Open Scope list_scope.
Local Open Scope stdpp_scope.

(** ** Messages *)

(** The object obtained from [JSON.parse(message)]. *)
Record data := Data {
  data_type : option string;
  data_roomId : option string;
  data_username : option string;
  data_text : option string;
  data_rest : string
}.

#[global] Instance data_eq_dec : EqDecision data.
Proof. solve_decision. Defined.

(** What arrives on the socket: text that [JSON.parse] rejects, the JSON
    literal [null] (reading [data.type] then raises a TypeError), or an
    object.  A JSON number, string, boolean or array has no [type] property
    and behaves like an object without fields. *)
Inductive raw :=
| Unparsable
| JsonNull
| JsonObject (d : data).

(** Objects the server serialises with [JSON.stringify] and writes to a socket.
    A property whose value is [undefined] is left out by [JSON.stringify],
    hence the options. *)
Inductive envelope :=
| EError (message : string)                       (* {type:'error', message} *)
| EErrorMsg (msg : string)                        (* {type:'error', msg} *)
| ERoomAlreadyExist (roomId : string) (msg : string)
| ENoRoom (msg : string)
| EUserJoined (drawings : option (list data)) (users : list string)
              (username : string) (roomId : string) (userCount : nat)
              (message : string)
| EUserLeft (users : list string) (username : option string)
            (roomId : string) (userCount : nat) (message : string)
| EChat (username : option string) (text : option string) (timestamp : Z)
| EVerbatim (d : data).                           (* the inbound object itself *)

(** One [client.send(dataStr)] that reached an open socket. *)
Definition delivery : Type := nat * envelope.

(** ** JavaScript values used as conditions *)

(** [if (x)] for a value that is a string or [undefined]. *)
Definition truthy (x : option string) : bool :=
  match x with
  | Some (String _ _) => true
  | Some EmptyString => false
  | None => false
  end.

(** [`${x}`] for a value that is a string or [undefined]. *)
Definition template (x : option string) : string :=
  match x with
  | Some s => s
  | None => "undefined"
  end.

(** ** JavaScript sets, in insertion order *)

Section JsSet.
Context {A : Type} `{EqDecision A}.

Definition Set_add (x : A) (s : list A) : list A :=
  if decide (x ∈ s) then s else s ++ [x].

Definition Set_delete (x : A) (s : list A) : list A :=
  filter (λ y, y ≠ x) s.

(** [s.delete(x)] where [x] may be [undefined], never an element. *)
Definition Set_delete_js (x : option A) (s : list A) : list A :=
  match x with
  | Some a => Set_delete a s
  | None => s
  end.
End JsSet.

(** ** State *)

(** The closure variables of one connection handler. *)
Record session := Session {
  currentRoom : option string;
  usernameServer : option string
}.

Record state := State {
  rooms : gmap string (list nat);        (* roomId -> Set<ws> *)
  users : gmap string (list string);     (* roomId -> Set<username> *)
  drawings : gmap string (list data);    (* roomId -> Array<drawingData> *)
  sessions : gmap nat session;           (* closure variables per live ws *)
  readyOpen : gset nat;                  (* sockets with readyState OPEN *)
  nextWs : nat                           (* identity of the next ws object *)
}.

Definition initial : state :=
  State ∅ ∅ ∅ ∅ ∅ 0.

Definition with_rooms (f : gmap string (list nat) → gmap string (list nat))
    (σ : state) : state :=
  State (f (rooms σ)) (users σ) (drawings σ) (sessions σ) (readyOpen σ) (nextWs σ).

Definition with_users (f : gmap string (list string) → gmap string (list string))
    (σ : state) : state :=
  State (rooms σ) (f (users σ)) (drawings σ) (sessions σ) (readyOpen σ) (nextWs σ).

Definition with_drawings (f : gmap string (list data) → gmap string (list data))
    (σ : state) : state :=
  State (rooms σ) (users σ) (f (drawings σ)) (sessions σ) (readyOpen σ) (nextWs σ).

Definition with_sessions (f : gmap nat session → gmap nat session)
    (σ : state) : state :=
  State (rooms σ) (users σ) (drawings σ) (f (sessions σ)) (readyOpen σ) (nextWs σ).

(** [m.get(k)] for a key that is a string or [undefined]; no map of the server
    ever has the key [undefined]. *)
Definition Map_get {V : Type} (m : gmap string V) (k : option string) : option V :=
  match k with
  | Some r => m !! r
  | None => None
  end.

(** ** The handler monad: state, socket writes, exceptions *)

Inductive outcome (A : Type) :=
| Returned (a : A)
| Thrown.
Arguments Returned {A} a.
Arguments Thrown {A}.

Definition M (A : Type) : Type := state → outcome A * state * list delivery.

Definition ret {A} (a : A) : M A := λ σ, (Returned a, σ, []).

Definition bind {A B} (m : M A) (k : A → M B) : M B := λ σ,
  match m σ with
  | (Returned a, σ1, out1) =>
      match k a σ1 with
      | (r, σ2, out2) => (r, σ2, out1 ++ out2)
      end
  | (Thrown, σ1, out1) => (Thrown, σ1, out1)
  end.

Definition throw {A} : M A := λ σ, (Thrown, σ, []).

(** [try { body } catch (error) { handler }] *)
Definition try_catch {A} (body handler : M A) : M A := λ σ,
  match body σ with
  | (Returned a, σ1, out1) => (Returned a, σ1, out1)
  | (Thrown, σ1, out1) =>
      match handler σ1 with
      | (r, σ2, out2) => (r, σ2, out1 ++ out2)
      end
  end.

Definition get : M state := λ σ, (Returned σ, σ, []).
Definition modify (f : state → state) : M unit := λ σ, (Returned tt, f σ, []).

Notation "x <- m ;; k" := (bind m (λ x, k))
  (at level 100, m at next level, right associativity).
Notation "m ;;; k" := (bind m (λ _, k))
  (at level 100, right associativity).

Fixpoint forEach {A} (s : list A) (f : A → M unit) : M unit :=
  match s with
  | [] => ret tt
  | x :: s' => f x ;;; forEach s' f
  end.

(** [client.readyState === WebSocket.OPEN] *)
Definition readyState_OPEN (client : nat) : M bool := λ σ,
  (Returned (bool_decide (client ∈ readyOpen σ)), σ, []).

(** [ws.send(str)].  The text reaches the peer only through an open socket.
    On a socket that is not open the library either drops the text or raises;
    every unguarded [ws.send] of the server is the last action of its handler
    and sits inside the router's [try], whose [catch] sends on the same socket
    again, so in both cases nothing is delivered and nothing else changes. *)
Definition ws_send (ws : nat) (e : envelope) : M unit := λ σ,
  (Returned tt, σ, if bool_decide (ws ∈ readyOpen σ) then [(ws, e)] else []).

(** Closure variables of the handler of [ws]. *)
Definition get_currentRoom (ws : nat) : M (option string) := λ σ,
  (Returned (s ← sessions σ !! ws; currentRoom s), σ, []).

Definition get_usernameServer (ws : nat) : M (option string) := λ σ,
  (Returned (s ← sessions σ !! ws; usernameServer s), σ, []).

Definition set_currentRoom (ws : nat) (v : option string) : M unit :=
  modify (with_sessions (alter (λ s, Session v (usernameServer s)) ws)).

Definition set_usernameServer (ws : nat) (v : option string) : M unit :=
  modify (with_sessions (alter (λ s, Session (currentRoom s) v) ws)).

(** ** Broadcasting functions *)

Definition broadcastToRoom (currentRoom : option string) (data : envelope) : M unit :=
  σ <- get ;;
  match Map_get (rooms σ) currentRoom with
  | None => ret tt
  | Some roomWs =>
      forEach roomWs (λ client,
        o <- readyState_OPEN client ;;
        if o then ws_send client data else ret tt)
  end.

Definition broadcastToRoomExcept (currentRoom : option string) (excludeWs : nat)
    (data : envelope) : M unit :=
  σ <- get ;;
  match Map_get (rooms σ) currentRoom with
  | None => ret tt
  | Some roomWs =>
      forEach roomWs (λ client,
        o <- readyState_OPEN client ;;
        if bool_decide (client ≠ excludeWs) && o then ws_send client data else ret tt)
  end.

(** ** Room management functions *)

Definition addUserToRoom (ws : nat) (currentRoom usernameServer : string) : M unit :=
  σ <- get ;;
  match rooms σ !! currentRoom with
  | None => throw                          (* roomWs.add on undefined *)
  | Some roomWs =>
      let roomWs' := Set_add ws roomWs in
      modify (with_rooms <[currentRoom := roomWs']>) ;;;
      match users σ !! currentRoom with
      | None => throw                      (* roomUsers.add on undefined *)
      | Some roomUsers =>
          let roomUsers' := Set_add usernameServer roomUsers in
          modify (with_users <[currentRoom := roomUsers']>) ;;;
          broadcastToRoom (Some currentRoom)
            (EUserJoined (drawings σ !! currentRoom) roomUsers' usernameServer
               currentRoom (List.length roomWs')
               (usernameServer +:+ " joined the room: " +:+ currentRoom))
      end
  end.

Definition handleCreateRoom (ws : nat) (currentRoom usernameServer : option string)
    : M unit :=
  if negb (truthy currentRoom) || negb (truthy usernameServer) then
    ws_send ws (EError "Missing room ID or username")
  else
    match currentRoom, usernameServer with
    | Some r, Some u =>
        σ <- get ;;
        match rooms σ !! r with
        | None =>
            modify (with_rooms <[r := []]>) ;;;
            modify (with_users <[r := []]>) ;;;
            modify (with_drawings <[r := []]>) ;;;
            addUserToRoom ws r u
        | Some _ =>
            ws_send ws (ERoomAlreadyExist r (r +:+ " already existed..."))
        end
    | _, _ => ret tt                       (* excluded by the test above *)
    end.

Definition handleJoinRoom (ws : nat) (currentRoom usernameServer : option string)
    : M unit :=
  if negb (truthy currentRoom) || negb (truthy usernameServer) then
    ws_send ws (EErrorMsg "Missing room ID or username")
  else
    match currentRoom, usernameServer with
    | Some r, Some u =>
        σ <- get ;;
        match rooms σ !! r with
        | None =>
            ws_send ws (ENoRoom ("Room " +:+ r +:+ " does not exist"))
        | Some _ => addUserToRoom ws r u
        end
    | _, _ => ret tt                       (* excluded by the test above *)
    end.

Definition leaveRoom (ws : nat) (currentRoom usernameServer : option string)
    : M unit :=
  σ <- get ;;
  match currentRoom with
  | None => ret tt                         (* rooms.has(undefined) is false *)
  | Some r =>
      match rooms σ !! r, users σ !! r with
      | Some roomWs, Some roomUsers =>
          let roomWs' := Set_delete ws roomWs in
          let roomUsers' := Set_delete_js usernameServer roomUsers in
          modify (with_rooms <[r := roomWs']>) ;;;
          modify (with_users <[r := roomUsers']>) ;;;
          if Nat.eqb (List.length roomWs') 0 && Nat.eqb (List.length roomUsers') 0 then
            modify (with_rooms (delete r)) ;;;
            modify (with_users (delete r)) ;;;
            modify (with_drawings (delete r))
          else
            broadcastToRoomExcept (Some r) ws
              (EUserLeft roomUsers' usernameServer r (List.length roomWs')
                 (template usernameServer +:+ " left the room"))
      | _, _ => ret tt
      end
  end.

(** ** Drawing functions *)

Definition handleDrawing (ws : nat) (data : data) (currentRoom : option string)
    : M unit :=
  σ <- get ;;
  match Map_get (drawings σ) currentRoom, currentRoom with
  | Some drawing, Some r =>
      (if truthy (data_type data)
       then modify (with_drawings <[r := drawing ++ [data]]>)
       else ret tt) ;;;
      broadcastToRoomExcept currentRoom ws (EVerbatim data)
  | _, _ => ret tt
  end.

Definition handleShape (ws : nat) (data : data) (currentRoom : option string)
    : M unit :=
  σ <- get ;;
  match Map_get (drawings σ) currentRoom, currentRoom with
  | Some drawing, Some r =>
      (if bool_decide (data_type data ≠ Some "clear")
       then modify (with_drawings <[r := drawing ++ [data]]>)
       else modify (with_drawings <[r := []]>)) ;;;
      broadcastToRoomExcept currentRoom ws (EVerbatim data)
  | _, _ => ret tt
  end.

(** ** The connection handlers *)

(** The groups of [case] labels of [switch (data.type)]. *)
Inductive label :=
| create_room
| join_room
| chat
| start_draw          (* case 'start': case 'draw': *)
| shape               (* case 'text': case 'rectangle': case 'circle': case 'clear': *)
| default.

Definition switch (type : string) : label :=
  if String.eqb type "create_room" then create_room
  else if String.eqb type "join_room" then join_room
  else if String.eqb type "chat" then chat
  else if String.eqb type "start" || String.eqb type "draw" then start_draw
  else if String.eqb type "text" || String.eqb type "rectangle"
          || String.eqb type "circle" || String.eqb type "clear" then shape
  else default.

(** [const data = JSON.parse(message)] followed by the first read of a
    property of [data]. *)
Definition JSON_parse (message : raw) : M data :=
  match message with
  | Unparsable => throw                    (* SyntaxError *)
  | JsonNull => throw                      (* TypeError on data.type *)
  | JsonObject d => ret d
  end.

(** [if (data.roomId && data.username) { currentRoom = ...; usernameServer = ... }] *)
Definition adopt (ws : nat) (data : data) : M unit :=
  if truthy (data_roomId data) && truthy (data_username data) then
    set_currentRoom ws (data_roomId data) ;;;
    set_usernameServer ws (data_username data)
  else ret tt.

(** [if (currentRoom) { leaveRoom(ws, currentRoom, usernameServer) }] *)
Definition leave_current (ws : nat) : M unit :=
  currentRoom <- get_currentRoom ws ;;
  usernameServer <- get_usernameServer ws ;;
  if truthy currentRoom then leaveRoom ws currentRoom usernameServer else ret tt.

(** The [try] block of [ws.on('message', ...)]; [now] is the value of
    [Date.now()]. *)
Definition on_message_try (ws : nat) (message : raw) (now : Z) : M unit :=
  data <- JSON_parse message ;;
  match data_type data with
  | None => throw                          (* Missing message type *)
  | Some EmptyString => throw              (* Missing message type *)
  | Some type =>
      match switch type with
      | create_room =>
          leave_current ws ;;;
          adopt ws data ;;;
          currentRoom <- get_currentRoom ws ;;
          usernameServer <- get_usernameServer ws ;;
          handleCreateRoom ws currentRoom usernameServer
      | join_room =>
          leave_current ws ;;;
          adopt ws data ;;;
          currentRoom <- get_currentRoom ws ;;
          usernameServer <- get_usernameServer ws ;;
          handleJoinRoom ws currentRoom usernameServer
      | chat =>
          set_currentRoom ws (data_roomId data) ;;;
          currentRoom <- get_currentRoom ws ;;
          usernameServer <- get_usernameServer ws ;;
          broadcastToRoomExcept currentRoom ws
            (EChat usernameServer (data_text data) now)
      | start_draw =>
          set_currentRoom ws (data_roomId data) ;;;
          currentRoom <- get_currentRoom ws ;;
          handleDrawing ws data currentRoom
      | shape =>
          set_currentRoom ws (data_roomId data) ;;;
          currentRoom <- get_currentRoom ws ;;
          handleShape ws data currentRoom
      | default => ret tt                  (* console.warn *)
      end
  end.

(** [ws.on('message', ...)]: the [try] block and its [catch]. *)
Definition on_message (ws : nat) (message : raw) (now : Z) : M unit :=
  try_catch (on_message_try ws message now)
            (ws_send ws (EError "Invalid data format")).

(** [ws.on('close', ...)] *)
Definition on_close (ws : nat) : M unit :=
  leave_current ws.

(** ** Events of the server and its runs *)

Inductive event :=
| Connection                                (* wss.on('connection') with a new ws *)
| Message (ws : nat) (message : raw) (now : Z)
| NotOpen (ws : nat)                        (* readyState of ws leaves OPEN *)
| Close (ws : nat).                         (* ws emits 'close' *)

Definition on_connection (σ : state) : state :=
  State (rooms σ) (users σ) (drawings σ)
        (<[nextWs σ := Session None None]> (sessions σ))
        ({[nextWs σ]} ∪ readyOpen σ)
        (S (nextWs σ)).

Definition not_open (ws : nat) (σ : state) : state :=
  State (rooms σ) (users σ) (drawings σ) (sessions σ)
        (readyOpen σ ∖ {[ws]}) (nextWs σ).

Definition exec {A} (m : M A) (σ : state) : state * list delivery :=
  match m σ with
  | (_, σ', out) => (σ', out)
  end.

(** One event handled to completion; the second component is what was
    written to open sockets while handling it.  Only a connection whose
    handlers are registered (it has a session) reacts to its events. *)
Definition step (σ : state) (ev : event) : state * list delivery :=
  match ev with
  | Connection => (on_connection σ, [])
  | Message ws message now =>
      match sessions σ !! ws with
      | Some _ => exec (on_message ws message now) σ
      | None => (σ, [])
      end
  | NotOpen ws => (not_open ws σ, [])
  | Close ws =>
      match sessions σ !! ws with
      | Some _ =>
          match exec (on_close ws) (not_open ws σ) with
          | (σ', out) => (with_sessions (delete ws) σ', out)
          end
      | None => (σ, [])
      end
  end.

Fixpoint run (σ : state) (evs : list event) : state * list delivery :=
  match evs with
  | [] => (σ, [])
  | ev :: evs' =>
      match step σ ev with
      | (σ1, out1) =>
          match run σ1 evs' with
          | (σ2, out2) => (σ2, out1 ++ out2)
          end
      end
  end.

Definition reachable (σ : state) : Prop :=
  ∃ evs, (run initial evs).1 = σ.

(** ** Accepting connections *)

(** The [allowedOrigins] array of [verifyClient]. *)
Definition allowedOrigins : list string :=
  ["https://aanand-code.github.io/";
   "https://real-time-collaborative-whiteboard-uove.onrender.com/";
   "http://localhost:5500"].

(** What [verifyClient] passes to [done]: [done(true)], or
    [done(false, code, message)]. *)
Inductive verdict :=
| Accepted
| Refused (code : nat) (message : string).

(** [arr.includes(x)] for a value that is a string or [undefined], in an
    array of strings. *)
Definition Array_includes (arr : list string) (x : option string) : bool :=
  match x with
  | Some o => bool_decide (o ∈ arr)
  | None => false
  end.

(** [verifyClient: (info, done) => ...]; [origin] is [info.origin], the
    Origin header of the upgrade request when it has one. *)
Definition verifyClient (origin : option string) : verdict :=
  if Array_includes allowedOrigins origin then Accepted
  else Refused 401 "Unauthorized origin".

(** ** Notions used in the statements

    What the handlers write and leave behind, the invariants of the state,
    and the vocabulary of the theorems below. *)

(** The writes of one [roomWs.forEach] loop: to every open socket of [roomWs]
    other than [skip], in the order of the set. *)
Definition fanout (open : gset nat) (roomWs : list nat) (skip : option nat)
    (e : envelope) : list delivery :=
  (λ client, (client, e)) <$>
    filter (λ client, Some client ≠ skip ∧ client ∈ open) roomWs.

(** The write of one unguarded [ws.send]. *)
Definition send_out (open : gset nat) (ws : nat) (e : envelope) : list delivery :=
  if bool_decide (ws ∈ open) then [(ws, e)] else [].

(** The closure variables after
    [if (data.roomId && data.username) { ... }]. *)
Definition adopted (s : session) (d : data) : session :=
  if truthy (data_roomId d) && truthy (data_username d)
  then Session (data_roomId d) (data_username d) else s.

(** What [leave_current] computes for a connection whose variables are [s]. *)
Definition left (ws : nat) (s : session) (σ : state) : state * list delivery :=
  if truthy (currentRoom s)
  then exec (leaveRoom ws (currentRoom s) (usernameServer s)) σ
  else (σ, []).

(** The state in which the room handler of a [create_room] or [join_room]
    runs: the previous room left, the closure variables updated. *)
Definition moved (ws : nat) (s : session) (σ : state) (d : data) : state :=
  with_sessions <[ws := adopted s d]> (left ws s σ).1.

(** The state after [currentRoom = data.roomId]. *)
Definition retargeted (ws : nat) (s : session) (σ : state) (d : data)
    : state :=
  with_sessions <[ws := Session (data_roomId d) (usernameServer s)]> σ.

(** Well-formed states: the three maps have the same keys, no key is the
    empty string, and only accepted connections have closure variables. *)
Definition wf (σ : state) : Prop :=
  dom (rooms σ) = dom (users σ) ∧
  dom (rooms σ) = dom (drawings σ) ∧
  (EmptyString ∉ dom (rooms σ)) ∧
  (∀ c, c ∈ dom (sessions σ) → c < nextWs σ).

(** A computation that, from a well-formed state, returns normally in a
    well-formed state. *)
Definition total {A} (m : M A) (σ : state) : Prop :=
  ∃ a σ' out, m σ = (Returned a, σ', out) ∧ wf σ'.

(** The three maps of the server. *)
Definition registry (σ : state) :
    gmap string (list nat) * gmap string (list string) * gmap string (list data) :=
  (rooms σ, users σ, drawings σ).

(** The [type] values whose handlers relay a message to the other members. *)
Definition relayed : list string :=
  ["chat"; "start"; "draw"; "text"; "rectangle"; "circle"; "clear"].

(** What the [try] block rejects before it reaches the [switch]. *)
Definition rejected (message : raw) : bool :=
  match message with
  | Unparsable => true
  | JsonNull => true
  | JsonObject d => negb (truthy (data_type d))
  end.


(** The drawing log of a room after a relayed message for it. *)
Definition logged (type : string) (drawing : list data) (d : data) : list data :=
  if String.eqb type "chat" then drawing
  else if String.eqb type "clear" then []
  else drawing ++ [d].

(** What is written to the sockets while relaying [d]. *)
Definition relay_envelope (type : string) (s : session) (d : data) (now : Z)
    : envelope :=
  if String.eqb type "chat"
  then EChat (usernameServer s) (data_text d) now
  else EVerbatim d.

(** The three ways [leave_current] can end. *)
Inductive left_spec (ws : nat) (s : session) (σ : state)
    : state * list delivery → Prop :=
| left_nothing :
    truthy (currentRoom s) = false ∨ Map_get (rooms σ) (currentRoom s) = None
      ∨ Map_get (users σ) (currentRoom s) = None →
    left_spec ws s σ (σ, [])
| left_deleted r roomWs roomUsers :
    currentRoom s = Some r → r ≠ EmptyString →
    rooms σ !! r = Some roomWs → users σ !! r = Some roomUsers →
    Set_delete ws roomWs = [] →
    Set_delete_js (usernameServer s) roomUsers = [] →
    left_spec ws s σ
      (State (delete r (rooms σ)) (delete r (users σ)) (delete r (drawings σ))
             (sessions σ) (readyOpen σ) (nextWs σ), [])
| left_remaining r roomWs roomUsers :
    currentRoom s = Some r → r ≠ EmptyString →
    rooms σ !! r = Some roomWs → users σ !! r = Some roomUsers →
    ¬ (Set_delete ws roomWs = [] ∧
       Set_delete_js (usernameServer s) roomUsers = []) →
    left_spec ws s σ
      (State (<[r := Set_delete ws roomWs]> (rooms σ))
             (<[r := Set_delete_js (usernameServer s) roomUsers]> (users σ))
             (drawings σ) (sessions σ) (readyOpen σ) (nextWs σ),
       fanout (readyOpen σ) (Set_delete ws roomWs) (Some ws)
         (EUserLeft (Set_delete_js (usernameServer s) roomUsers)
            (usernameServer s) r (List.length (Set_delete ws roomWs))
            (template (usernameServer s) +:+ " left the room"))).

(** The [user_joined] announcement of [addUserToRoom] when [ws] joins room
    [r], whose members and usernames were [roomWs] and [roomUsers]. *)
Definition joined_notice (σ : state) (ws : nat) (r name : string)
    (roomWs : list nat) (roomUsers : list string) : envelope :=
  EUserJoined (drawings σ !! r) (Set_add name roomUsers) name r
    (List.length (Set_add ws roomWs)) (name +:+ " joined the room: " +:+ r).

(** Connection [c] is in the members set of room [r]. *)
Definition member (σ : state) (c : nat) (r : string) : Prop :=
  ∃ roomWs, rooms σ !! r = Some roomWs ∧ c ∈ roomWs.

(** Every room that has [c] as a member is the one its [currentRoom] names. *)
Definition housed (c : nat) (σ : state) : Prop :=
  ∀ r, member σ c r → (sessions σ !! c ≫= currentRoom) = Some r.

(** A message of [c] that reaches one of the relaying [case] groups and names
    another room than the one [currentRoom] of [c] holds. *)
Definition retargets (c : nat) (σ : state) (ev : event) : Prop :=
  match ev with
  | Message ws (JsonObject d) _ =>
      ws = c ∧
      (∃ type, data_type d = Some type ∧ type ≠ EmptyString ∧
         (switch type = chat ∨ switch type = start_draw ∨ switch type = shape)) ∧
      data_roomId d ≠ (sessions σ !! c ≫= currentRoom)
  | _ => False
  end.

(** A run in which no message of [c] retargets its [currentRoom]. *)
Fixpoint steady (c : nat) (σ : state) (evs : list event) : Prop :=
  match evs with
  | [] => True
  | ev :: evs' => ¬ retargets c σ ev ∧ steady c (step σ ev).1 evs'
  end.

(** The state after a message, by the [case] group it reaches. *)
Inductive routed (ws : nat) (s : session) (σ : state) (d : data)
    : state → Prop :=
| routed_rejected : truthy (data_type d) = false → routed ws s σ d σ
| routed_default type :
    data_type d = Some type → switch type = default → routed ws s σ d σ
| routed_create type :
    data_type d = Some type → switch type = create_room →
    routed ws s σ d
      (handleCreateRoom ws (currentRoom (adopted s d))
         (usernameServer (adopted s d)) (moved ws s σ d)).1.2
| routed_join type :
    data_type d = Some type → switch type = join_room →
    routed ws s σ d
      (handleJoinRoom ws (currentRoom (adopted s d))
         (usernameServer (adopted s d)) (moved ws s σ d)).1.2
| routed_relay type σ' :
    data_type d = Some type → type ≠ EmptyString →
    switch type = chat ∨ switch type = start_draw ∨ switch type = shape →
    rooms σ' = rooms σ →
    sessions σ' = <[ws := Session (data_roomId d) (usernameServer s)]> (sessions σ) →
    routed ws s σ d σ'.

(** The drawing log of the specification: append an event for the room
    unless it is a clear marker, reset on a clear marker, leave alone
    otherwise. *)
Definition log_event (r : string) (h : list data) (ev : event) : list data :=
  match ev with
  | Message _ (JsonObject d) _ =>
      match data_type d with
      | Some type =>
          if bool_decide (type ∈ relayed ∧ data_roomId d = Some r)
          then logged type h d else h
      | None => h
      end
  | _ => h
  end.

Fixpoint replayed (r : string) (h : list data) (evs : list event) : list data :=
  match evs with
  | [] => h
  | ev :: evs' => replayed r (log_event r h ev) evs'
  end.

Definition drawing_types : list string :=
  ["start"; "draw"; "text"; "rectangle"; "circle"].

(** The non-clear drawing events for room [r] in a run, in order. *)
Fixpoint drawn (r : string) (evs : list event) : list data :=
  match evs with
  | [] => []
  | Message _ (JsonObject d) _ :: evs' =>
      match data_type d with
      | Some type =>
          if bool_decide (type ∈ drawing_types ∧ data_roomId d = Some r)
          then d :: drawn r evs' else drawn r evs'
      | None => drawn r evs'
      end
  | _ :: evs' => drawn r evs'
  end.

(** A clear marker for room [r]. *)
Definition clears (r : string) (ev : event) : bool :=
  match ev with
  | Message _ (JsonObject d) _ =>
      bool_decide (data_type d = Some "clear" ∧ data_roomId d = Some r)
  | _ => false
  end.

(** The events after the last clear marker for [r], if there is one. *)
Fixpoint after_last_clear (r : string) (evs : list event) : option (list event) :=
  match evs with
  | [] => None
  | ev :: evs' =>
      match after_last_clear r evs' with
      | Some rest => Some rest
      | None => if clears r ev then Some evs' else None
      end
  end.

(** What a joiner is to be sent for room [r] whose log was [h] before [evs]:
    the non-clear drawing events for [r] since the last clear marker, or all
    of them after [h] when there was no clear marker. *)
Definition since_last_clear (r : string) (h : list data) (evs : list event)
    : list data :=
  match after_last_clear r evs with
  | Some rest => drawn r rest
  | None => h ++ drawn r evs
  end.

(** A relayed message from a connection that has a session in [σ]. *)
Definition relayed_by (σ : state) (ev : event) : Prop :=
  match ev with
  | Message ws (JsonObject d) _ =>
      ws ∈ dom (sessions σ) ∧ ∃ type, data_type d = Some type ∧ type ∈ relayed
  | _ => False
  end.

(** Every room of the registry satisfies [P] (on its members and its
    usernames). *)
Definition all_rooms (P : list nat → list string → Prop) (σ : state) : Prop :=
  ∀ r roomWs roomUsers,
    rooms σ !! r = Some roomWs → users σ !! r = Some roomUsers →
    P roomWs roomUsers.

(** The connection whose handler an event runs: the sender of a message, the
    socket that closes, the socket a new connection is given. *)
Definition actor (σ : state) (ev : event) : nat :=
  match ev with
  | Connection => nextWs σ
  | Message ws _ _ => ws
  | NotOpen ws => ws
  | Close ws => ws
  end.

(** The three maps after [leaveRoom] took the last member and the last
    username out of room [r]. *)
Definition without_room (r : string) (σ : state) : state :=
  State (delete r (rooms σ)) (delete r (users σ)) (delete r (drawings σ))
        (sessions σ) (readyOpen σ) (nextWs σ).

(** The [user_left] announcement of [leaveRoom] when [ws], known as
    [name], leaves room [r], whose members and usernames were [roomWs] and
    [roomUsers]. *)
Definition left_notice (ws : nat) (name : option string) (r : string)
    (roomWs : list nat) (roomUsers : list string) : envelope :=
  EUserLeft (Set_delete_js name roomUsers) name r
    (List.length (Set_delete ws roomWs)) (template name +:+ " left the room").

(** The envelope is a [user_joined] announcement. *)
Definition is_user_joined (e : envelope) : Prop :=
  match e with
  | EUserJoined _ _ _ _ _ _ => True
  | _ => False
  end.

(** ** Equations of the handlers

    Each function of the server is rewritten once into the triple it
    computes; the later proofs work on these equations. *)

Ltac norm_state :=
  unfold with_rooms, with_users, with_drawings, with_sessions in *;
  cbn [rooms users drawings sessions readyOpen nextWs Map_get fst snd
       currentRoom usernameServer] in *.

Ltac mred :=
  unfold bind, modify, ret, get, throw, try_catch;
  cbv beta iota zeta; norm_state; cbn [app].

Lemma bind_eq {A B} (m : M A) (k : A → M B) σ :
  bind m k σ =
  match m σ with
  | (Returned a, σ1, out1) =>
      match k a σ1 with
      | (r, σ2, out2) => (r, σ2, out1 ++ out2)
      end
  | (Thrown, σ1, out1) => (Thrown, σ1, out1)
  end.
Proof. reflexivity. Qed.

Lemma forEach_all σ e (roomWs : list nat) :
  forEach roomWs (λ client,
      o <- readyState_OPEN client ;;
      if o then ws_send client e else ret tt) σ
  = (Returned tt, σ, fanout (readyOpen σ) roomWs None e).
Proof.
  unfold fanout. induction roomWs as [|c l IH]; [done|].
  cbn [forEach]. rewrite bind_eq. rewrite bind_eq.
  unfold readyState_OPEN at 1. cbv iota beta.
  rewrite filter_cons.
  destruct (decide (c ∈ readyOpen σ)) as [Hin|Hout].
  - rewrite bool_decide_eq_true_2 by done. unfold ws_send at 1.
    rewrite bool_decide_eq_true_2 by done. rewrite IH.
    rewrite decide_True by done. done.
  - rewrite bool_decide_eq_false_2 by done. unfold ret at 1. rewrite IH.
    rewrite decide_False by tauto. done.
Qed.

Lemma forEach_except σ e ex (roomWs : list nat) :
  forEach roomWs (λ client,
      o <- readyState_OPEN client ;;
      if bool_decide (client ≠ ex) && o then ws_send client e else ret tt) σ
  = (Returned tt, σ, fanout (readyOpen σ) roomWs (Some ex) e).
Proof.
  unfold fanout. induction roomWs as [|c l IH]; [done|].
  cbn [forEach]. rewrite bind_eq. rewrite bind_eq.
  unfold readyState_OPEN at 1. cbv iota beta.
  rewrite filter_cons.
  destruct (decide (c = ex)) as [->|Hne].
  - rewrite (bool_decide_eq_false_2 (ex ≠ ex)) by tauto.
    cbn [andb]. unfold ret at 1. rewrite IH.
    rewrite decide_False by (intros [? ?]; congruence). done.
  - rewrite (bool_decide_eq_true_2 (c ≠ ex)) by done. cbn [andb].
    destruct (decide (c ∈ readyOpen σ)) as [Hin|Hout].
    + rewrite bool_decide_eq_true_2 by done. unfold ws_send at 1.
      rewrite bool_decide_eq_true_2 by done. rewrite IH.
      rewrite decide_True by (split; [congruence|done]). done.
    + rewrite bool_decide_eq_false_2 by done. unfold ret at 1. rewrite IH.
      rewrite decide_False by tauto. done.
Qed.

Lemma broadcastToRoom_eq k e σ :
  broadcastToRoom k e σ =
  (Returned tt, σ,
   match Map_get (rooms σ) k with
   | Some roomWs => fanout (readyOpen σ) roomWs None e
   | None => []
   end).
Proof.
  unfold broadcastToRoom. rewrite bind_eq. unfold get.
  destruct (Map_get (rooms σ) k); [|done].
  rewrite forEach_all. done.
Qed.

Lemma broadcastToRoomExcept_eq k ex e σ :
  broadcastToRoomExcept k ex e σ =
  (Returned tt, σ,
   match Map_get (rooms σ) k with
   | Some roomWs => fanout (readyOpen σ) roomWs (Some ex) e
   | None => []
   end).
Proof.
  unfold broadcastToRoomExcept. rewrite bind_eq. unfold get.
  destruct (Map_get (rooms σ) k); [|done].
  rewrite forEach_except. done.
Qed.

Lemma fanout_elem open roomWs skip e c e' :
  (c, e') ∈ fanout open roomWs skip e ↔
  e' = e ∧ c ∈ roomWs ∧ Some c ≠ skip ∧ c ∈ open.
Proof.
  unfold fanout. rewrite list_elem_of_fmap. split.
  - intros (x & Heq & Hx). injection Heq as -> ->.
    apply list_elem_of_filter in Hx. tauto.
  - intros (-> & Hc & Hs & Ho). exists c. split; [done|].
    apply list_elem_of_filter. tauto.
Qed.

Lemma ws_send_eq ws e σ :
  ws_send ws e σ = (Returned tt, σ, send_out (readyOpen σ) ws e).
Proof. reflexivity. Qed.

Lemma leaveRoom_eq ws k u σ :
  leaveRoom ws k u σ =
  match k with
  | Some r =>
      match rooms σ !! r, users σ !! r with
      | Some roomWs, Some roomUsers =>
          let roomWs' := Set_delete ws roomWs in
          let roomUsers' := Set_delete_js u roomUsers in
          if Nat.eqb (List.length roomWs') 0 && Nat.eqb (List.length roomUsers') 0
          then
            (Returned tt,
             State (delete r (rooms σ)) (delete r (users σ)) (delete r (drawings σ))
                   (sessions σ) (readyOpen σ) (nextWs σ),
             [])
          else
            (Returned tt,
             State (<[r := roomWs']> (rooms σ)) (<[r := roomUsers']> (users σ))
                   (drawings σ) (sessions σ) (readyOpen σ) (nextWs σ),
             fanout (readyOpen σ) roomWs' (Some ws)
               (EUserLeft roomUsers' u r (List.length roomWs')
                  (template u +:+ " left the room")))
      | _, _ => (Returned tt, σ, [])
      end
  | None => (Returned tt, σ, [])
  end.
Proof.
  unfold leaveRoom. mred.
  destruct k as [r|]; [|done].
  destruct (rooms σ !! r) as [roomWs|]; [|done].
  destruct (users σ !! r) as [roomUsers|]; [|done].
  destruct (_ && _); mred.
  - rewrite !delete_insert_eq. done.
  - rewrite broadcastToRoomExcept_eq. mred. rewrite lookup_insert_eq. done.
Qed.

Lemma addUserToRoom_eq ws r u σ :
  addUserToRoom ws r u σ =
  match rooms σ !! r with
  | None => (Thrown, σ, [])
  | Some roomWs =>
      let roomWs' := Set_add ws roomWs in
      match users σ !! r with
      | None =>
          (Thrown,
           State (<[r := roomWs']> (rooms σ)) (users σ) (drawings σ)
                 (sessions σ) (readyOpen σ) (nextWs σ), [])
      | Some roomUsers =>
          let roomUsers' := Set_add u roomUsers in
          (Returned tt,
           State (<[r := roomWs']> (rooms σ)) (<[r := roomUsers']> (users σ))
                 (drawings σ) (sessions σ) (readyOpen σ) (nextWs σ),
           fanout (readyOpen σ) roomWs' None
             (EUserJoined (drawings σ !! r) roomUsers' u r (List.length roomWs')
                (u +:+ " joined the room: " +:+ r)))
      end
  end.
Proof.
  unfold addUserToRoom. mred.
  destruct (rooms σ !! r) as [roomWs|]; [|done].
  destruct (users σ !! r) as [roomUsers|]; mred; [|done].
  rewrite broadcastToRoom_eq. mred. rewrite lookup_insert_eq. done.
Qed.

Lemma Set_add_nil {A} `{EqDecision A} (x : A) : Set_add x [] = [x].
Proof. unfold Set_add. rewrite decide_False; [done|]. apply not_elem_of_nil. Qed.

Lemma elem_of_Set_add {A} `{EqDecision A} (x y : A) s :
  y ∈ Set_add x s ↔ y = x ∨ y ∈ s.
Proof.
  unfold Set_add. destruct (decide (x ∈ s)).
  - split; [tauto|]. intros [Heq|?]; [by subst|done].
  - rewrite elem_of_app, list_elem_of_singleton. tauto.
Qed.

Lemma elem_of_Set_delete {A} `{EqDecision A} (x y : A) s :
  y ∈ Set_delete x s ↔ y ≠ x ∧ y ∈ s.
Proof. unfold Set_delete. by rewrite list_elem_of_filter. Qed.

Lemma truthy_Some k : truthy k = true → ∃ r, k = Some r ∧ r ≠ EmptyString.
Proof. destruct k as [[|a r]|]; try done. intros _. by eexists. Qed.

Lemma truthy_nonempty r : r ≠ EmptyString → truthy (Some r) = true.
Proof. by destruct r. Qed.

Lemma handleCreateRoom_eq ws k u σ :
  handleCreateRoom ws k u σ =
  match k, u with
  | Some r, Some name =>
      if truthy k && truthy u then
        match rooms σ !! r with
        | Some _ =>
            (Returned tt, σ,
             send_out (readyOpen σ) ws
               (ERoomAlreadyExist r (r +:+ " already existed...")))
        | None =>
            (Returned tt,
             State (<[r := [ws]]> (rooms σ)) (<[r := [name]]> (users σ))
                   (<[r := []]> (drawings σ)) (sessions σ) (readyOpen σ) (nextWs σ),
             fanout (readyOpen σ) [ws] None
               (EUserJoined (Some []) [name] name r 1
                  (name +:+ " joined the room: " +:+ r)))
        end
      else
        (Returned tt, σ,
         send_out (readyOpen σ) ws (EError "Missing room ID or username"))
  | _, _ =>
      (Returned tt, σ,
       send_out (readyOpen σ) ws (EError "Missing room ID or username"))
  end.
Proof.
  unfold handleCreateRoom.
  destruct k as [r|]; [|done].
  destruct u as [name|]; [|by rewrite orb_true_r].
  destruct (truthy (Some r)); [|done].
  destruct (truthy (Some name)); [|done].
  cbn [negb orb andb]. mred.
  destruct (rooms σ !! r) as [roomWs|] eqn:Hr; [done|].
  rewrite addUserToRoom_eq. mred.
  rewrite !lookup_insert_eq, !insert_insert_eq, !Set_add_nil. done.
Qed.

Lemma handleJoinRoom_eq ws k u σ :
  handleJoinRoom ws k u σ =
  match k, u with
  | Some r, Some name =>
      if truthy k && truthy u then
        match rooms σ !! r with
        | Some _ => addUserToRoom ws r name σ
        | None =>
            (Returned tt, σ,
             send_out (readyOpen σ) ws
               (ENoRoom ("Room " +:+ r +:+ " does not exist")))
        end
      else
        (Returned tt, σ,
         send_out (readyOpen σ) ws (EErrorMsg "Missing room ID or username"))
  | _, _ =>
      (Returned tt, σ,
       send_out (readyOpen σ) ws (EErrorMsg "Missing room ID or username"))
  end.
Proof.
  unfold handleJoinRoom.
  destruct k as [r|]; [|done].
  destruct u as [name|]; [|by rewrite orb_true_r].
  destruct (truthy (Some r)); [|done].
  destruct (truthy (Some name)); [|done].
  cbn [negb orb andb]. mred.
  destruct (rooms σ !! r) as [roomWs|] eqn:Hr; [|done].
  destruct (addUserToRoom ws r name σ) as [[[]]]; by rewrite ?app_nil_l.
Qed.

Lemma handleDrawing_eq ws d k σ :
  handleDrawing ws d k σ =
  match k with
  | Some r =>
      match drawings σ !! r with
      | Some drawing =>
          (Returned tt,
           (if truthy (data_type d)
            then with_drawings <[r := drawing ++ [d]]> σ else σ),
           match rooms σ !! r with
           | Some roomWs => fanout (readyOpen σ) roomWs (Some ws) (EVerbatim d)
           | None => []
           end)
      | None => (Returned tt, σ, [])
      end
  | None => (Returned tt, σ, [])
  end.
Proof.
  destruct k as [r|]; unfold handleDrawing; mred; [|done].
  destruct (drawings σ !! r) as [drawing|]; [|done].
  destruct (truthy (data_type d)); mred;
    rewrite broadcastToRoomExcept_eq; mred; done.
Qed.

Lemma handleShape_eq ws d k σ :
  handleShape ws d k σ =
  match k with
  | Some r =>
      match drawings σ !! r with
      | Some drawing =>
          (Returned tt,
           with_drawings
             <[r := if bool_decide (data_type d ≠ Some "clear")
                    then drawing ++ [d] else []]> σ,
           match rooms σ !! r with
           | Some roomWs => fanout (readyOpen σ) roomWs (Some ws) (EVerbatim d)
           | None => []
           end)
      | None => (Returned tt, σ, [])
      end
  | None => (Returned tt, σ, [])
  end.
Proof.
  destruct k as [r|]; unfold handleShape; mred; [|done].
  destruct (drawings σ !! r) as [drawing|]; [|done].
  destruct (bool_decide _); mred;
    rewrite broadcastToRoomExcept_eq; mred; done.
Qed.

(** *** The closure variables *)

Lemma alter_is_insert {V} (f : V → V) (m : gmap nat V) k v :
  m !! k = Some v → alter f k m = <[k := f v]> m.
Proof.
  intros Hk. apply map_eq. intros j. rewrite lookup_alter, lookup_insert.
  destruct (decide (k = j)) as [->|]; [by rewrite Hk|done].
Qed.

Section Session.
Context (ws : nat) (s : session) (σ : state).
Hypothesis Hs : sessions σ !! ws = Some s.

Lemma get_currentRoom_eq :
  get_currentRoom ws σ = (Returned (currentRoom s), σ, []).
Proof using Hs. unfold get_currentRoom. by rewrite Hs. Qed.

Lemma get_usernameServer_eq :
  get_usernameServer ws σ = (Returned (usernameServer s), σ, []).
Proof using Hs. unfold get_usernameServer. by rewrite Hs. Qed.

Lemma set_currentRoom_eq v :
  set_currentRoom ws v σ =
  (Returned tt, with_sessions <[ws := Session v (usernameServer s)]> σ, []).
Proof using Hs.
  unfold set_currentRoom, modify, with_sessions.
  by rewrite (alter_is_insert _ _ _ _ Hs).
Qed.

Lemma set_usernameServer_eq v :
  set_usernameServer ws v σ =
  (Returned tt, with_sessions <[ws := Session (currentRoom s) v]> σ, []).
Proof using Hs.
  unfold set_usernameServer, modify, with_sessions.
  by rewrite (alter_is_insert _ _ _ _ Hs).
Qed.
End Session.

Lemma adopt_eq ws s d σ :
  sessions σ !! ws = Some s →
  adopt ws d σ = (Returned tt, with_sessions <[ws := adopted s d]> σ, []).
Proof.
  intros Hs. unfold adopt, adopted.
  destruct (truthy (data_roomId d) && truthy (data_username d)).
  - rewrite bind_eq, (set_currentRoom_eq _ _ _ Hs).
    erewrite set_usernameServer_eq by (norm_state; apply lookup_insert_eq).
    norm_state. by rewrite insert_insert_eq.
  - unfold ret, with_sessions. rewrite insert_id by done. by destruct σ.
Qed.

Lemma leaveRoom_returns ws k u σ : (leaveRoom ws k u σ).1.1 = Returned tt.
Proof.
  rewrite leaveRoom_eq. destruct k as [r|]; [|done].
  destruct (rooms σ !! r); [|done]. destruct (users σ !! r); [|done].
  cbv zeta. by destruct (_ && _).
Qed.

Lemma leaveRoom_sessions ws k u σ :
  sessions (leaveRoom ws k u σ).1.2 = sessions σ ∧
  readyOpen (leaveRoom ws k u σ).1.2 = readyOpen σ ∧
  nextWs (leaveRoom ws k u σ).1.2 = nextWs σ.
Proof.
  rewrite leaveRoom_eq. destruct k as [r|]; [|done].
  destruct (rooms σ !! r); [|done]. destruct (users σ !! r); [|done].
  cbv zeta. by destruct (_ && _).
Qed.

Lemma leave_current_eq ws s σ :
  sessions σ !! ws = Some s →
  leave_current ws σ = (Returned tt, (left ws s σ).1, (left ws s σ).2).
Proof.
  intros Hs. unfold leave_current, left.
  rewrite bind_eq, (get_currentRoom_eq _ _ _ Hs).
  rewrite bind_eq, (get_usernameServer_eq _ _ _ Hs).
  destruct (truthy (currentRoom s)); [|done].
  unfold exec. cbn [app].
  pose proof (leaveRoom_returns ws (currentRoom s) (usernameServer s) σ) as Hr.
  destruct (leaveRoom ws (currentRoom s) (usernameServer s) σ) as [[o σ'] out].
  cbn in Hr. by subst o.
Qed.

Lemma left_sessions ws s σ :
  sessions (left ws s σ).1 = sessions σ ∧
  readyOpen (left ws s σ).1 = readyOpen σ ∧
  nextWs (left ws s σ).1 = nextWs σ.
Proof.
  unfold left. destruct (truthy (currentRoom s)); [|done].
  pose proof (leaveRoom_sessions ws (currentRoom s) (usernameServer s) σ) as H.
  unfold exec. by destruct (leaveRoom _ _ _ σ) as [[o σ'] out].
Qed.

(** *** The router, one equation per group of [case] labels *)

Section Router.
Context (ws : nat) (s : session) (σ : state) (d : data) (now : Z).
Context (type : string).
Hypothesis Hs : sessions σ !! ws = Some s.
Hypothesis Htype : data_type d = Some type.
Hypothesis Hne : type ≠ EmptyString.

Lemma on_message_try_create :
  switch type = create_room →
  on_message_try ws (JsonObject d) now σ =
  match handleCreateRoom ws (currentRoom (adopted s d))
          (usernameServer (adopted s d)) (moved ws s σ d) with
  | (r, σ', out) => (r, σ', (left ws s σ).2 ++ out)
  end.
Proof using Hs Htype Hne.
  intros Hl. unfold on_message_try, JSON_parse. rewrite bind_eq.
  unfold ret at 1. rewrite Htype. destruct type as [|a t]; [done|].
  rewrite Hl. rewrite bind_eq, (leave_current_eq _ _ _ Hs).
  assert (sessions (left ws s σ).1 !! ws = Some s) as Hs'
    by (by rewrite (proj1 (left_sessions ws s σ))).
  rewrite bind_eq, (adopt_eq _ _ _ _ Hs').
  fold (moved ws s σ d).
  assert (sessions (moved ws s σ d) !! ws = Some (adopted s d)) as Hs''
    by (unfold moved; norm_state; apply lookup_insert_eq).
  rewrite bind_eq, (get_currentRoom_eq _ _ _ Hs'').
  rewrite bind_eq, (get_usernameServer_eq _ _ _ Hs'').
  cbn [app].
  by destruct (handleCreateRoom _ _ _ (moved ws s σ d)) as [[[]]].
Qed.

Lemma on_message_try_join :
  switch type = join_room →
  on_message_try ws (JsonObject d) now σ =
  match handleJoinRoom ws (currentRoom (adopted s d))
          (usernameServer (adopted s d)) (moved ws s σ d) with
  | (r, σ', out) => (r, σ', (left ws s σ).2 ++ out)
  end.
Proof using Hs Htype Hne.
  intros Hl. unfold on_message_try, JSON_parse. rewrite bind_eq.
  unfold ret at 1. rewrite Htype. destruct type as [|a t]; [done|].
  rewrite Hl. rewrite bind_eq, (leave_current_eq _ _ _ Hs).
  assert (sessions (left ws s σ).1 !! ws = Some s) as Hs'
    by (by rewrite (proj1 (left_sessions ws s σ))).
  rewrite bind_eq, (adopt_eq _ _ _ _ Hs').
  fold (moved ws s σ d).
  assert (sessions (moved ws s σ d) !! ws = Some (adopted s d)) as Hs''
    by (unfold moved; norm_state; apply lookup_insert_eq).
  rewrite bind_eq, (get_currentRoom_eq _ _ _ Hs'').
  rewrite bind_eq, (get_usernameServer_eq _ _ _ Hs'').
  cbn [app].
  by destruct (handleJoinRoom _ _ _ (moved ws s σ d)) as [[[]]].
Qed.

Lemma on_message_try_chat :
  switch type = chat →
  on_message_try ws (JsonObject d) now σ =
  (Returned tt, retargeted ws s σ d,
   match Map_get (rooms σ) (data_roomId d) with
   | Some roomWs =>
       fanout (readyOpen σ) roomWs (Some ws)
         (EChat (usernameServer s) (data_text d) now)
   | None => []
   end).
Proof using Hs Htype Hne.
  intros Hl. unfold on_message_try, JSON_parse. rewrite bind_eq.
  unfold ret at 1. rewrite Htype. destruct type as [|a t]; [done|].
  rewrite Hl. rewrite bind_eq, (set_currentRoom_eq _ _ _ Hs).
  fold (retargeted ws s σ d).
  assert (sessions (retargeted ws s σ d) !! ws
          = Some (Session (data_roomId d) (usernameServer s))) as Hs'
    by (unfold retargeted; norm_state; apply lookup_insert_eq).
  rewrite bind_eq, (get_currentRoom_eq _ _ _ Hs').
  rewrite bind_eq, (get_usernameServer_eq _ _ _ Hs').
  rewrite broadcastToRoomExcept_eq. done.
Qed.

Lemma on_message_try_start_draw :
  switch type = start_draw →
  on_message_try ws (JsonObject d) now σ =
  handleDrawing ws d (data_roomId d) (retargeted ws s σ d).
Proof using Hs Htype Hne.
  intros Hl. unfold on_message_try, JSON_parse. rewrite bind_eq.
  unfold ret at 1. rewrite Htype. destruct type as [|a t]; [done|].
  rewrite Hl. rewrite bind_eq, (set_currentRoom_eq _ _ _ Hs).
  fold (retargeted ws s σ d).
  assert (sessions (retargeted ws s σ d) !! ws
          = Some (Session (data_roomId d) (usernameServer s))) as Hs'
    by (unfold retargeted; norm_state; apply lookup_insert_eq).
  rewrite bind_eq, (get_currentRoom_eq _ _ _ Hs'). cbn [currentRoom app].
  by destruct (handleDrawing _ _ _ (retargeted ws s σ d)) as [[[]]].
Qed.

Lemma on_message_try_shape :
  switch type = shape →
  on_message_try ws (JsonObject d) now σ =
  handleShape ws d (data_roomId d) (retargeted ws s σ d).
Proof using Hs Htype Hne.
  intros Hl. unfold on_message_try, JSON_parse. rewrite bind_eq.
  unfold ret at 1. rewrite Htype. destruct type as [|a t]; [done|].
  rewrite Hl. rewrite bind_eq, (set_currentRoom_eq _ _ _ Hs).
  fold (retargeted ws s σ d).
  assert (sessions (retargeted ws s σ d) !! ws
          = Some (Session (data_roomId d) (usernameServer s))) as Hs'
    by (unfold retargeted; norm_state; apply lookup_insert_eq).
  rewrite bind_eq, (get_currentRoom_eq _ _ _ Hs'). cbn [currentRoom app].
  by destruct (handleShape _ _ _ (retargeted ws s σ d)) as [[[]]].
Qed.

Lemma on_message_try_default :
  switch type = default →
  on_message_try ws (JsonObject d) now σ = (Returned tt, σ, []).
Proof using Htype Hne.
  intros Hl. unfold on_message_try, JSON_parse. rewrite bind_eq.
  unfold ret at 1. rewrite Htype. destruct type as [|a t]; [done|].
  by rewrite Hl.
Qed.
End Router.

Lemma on_message_try_untyped ws d now σ :
  truthy (data_type d) = false →
  on_message_try ws (JsonObject d) now σ = (Thrown, σ, []).
Proof.
  intros Ht. unfold on_message_try, JSON_parse. rewrite bind_eq.
  unfold ret at 1. by destruct (data_type d) as [[|a t]|].
Qed.

(** ** Well-formed states

    The three maps always have the same keys, no key is the empty string, and
    only connections that were accepted have closure variables. *)

Lemma wf_initial : wf initial.
Proof.
  unfold wf, initial. cbn. rewrite !dom_empty_L.
  repeat split; try done; set_solver.
Qed.

Lemma wf_users σ r : wf σ → users σ !! r = None ↔ rooms σ !! r = None.
Proof. intros (H1 & _). rewrite <- !not_elem_of_dom. by rewrite H1. Qed.

Lemma wf_drawings σ r : wf σ → drawings σ !! r = None ↔ rooms σ !! r = None.
Proof. intros (_ & H2 & _). rewrite <- !not_elem_of_dom. by rewrite H2. Qed.

Lemma wf_key σ r v : wf σ → rooms σ !! r = Some v → r ≠ EmptyString.
Proof.
  intros (_ & _ & H3 & _) Hr ->. apply H3. apply elem_of_dom. by eexists.
Qed.

Lemma wf_with_sessions σ ws s :
  wf σ → is_Some (sessions σ !! ws) → wf (with_sessions <[ws := s]> σ).
Proof.
  intros (H1 & H2 & H3 & H4) Hs. unfold wf. norm_state.
  repeat split; try done.
  intros c. rewrite dom_insert_lookup_L by done. apply H4.
Qed.

Lemma leaveRoom_wf ws k u σ : wf σ → wf (leaveRoom ws k u σ).1.2.
Proof.
  intros Hwf. rewrite leaveRoom_eq. destruct k as [r|]; [|done].
  destruct (rooms σ !! r) as [roomWs|] eqn:Hr; [|done].
  destruct (users σ !! r) as [roomUsers|] eqn:Hu; [|done].
  destruct Hwf as (H1 & H2 & H3 & H4).
  cbv zeta. destruct (_ && _); unfold wf; cbn.
  - rewrite !dom_delete_L, <- H1, <- H2. repeat split; try done.
    intros [Hin _]%elem_of_difference. by apply H3.
  - rewrite !dom_insert_lookup_L by (by eexists). done.
Qed.

Lemma left_wf ws s σ : wf σ → wf (left ws s σ).1.
Proof.
  intros Hwf. unfold left. destruct (truthy (currentRoom s)); [|done].
  pose proof (leaveRoom_wf ws (currentRoom s) (usernameServer s) σ Hwf) as H.
  unfold exec. by destruct (leaveRoom _ _ _ σ) as [[o σ'] out].
Qed.

Lemma addUserToRoom_total ws r u σ :
  wf σ → is_Some (rooms σ !! r) → total (addUserToRoom ws r u) σ.
Proof.
  intros Hwf [roomWs Hr]. unfold total. rewrite addUserToRoom_eq, Hr.
  destruct (users σ !! r) as [roomUsers|] eqn:Hu.
  - eexists _, _, _. split; [done|].
    destruct Hwf as (H1 & H2 & H3 & H4). unfold wf. cbn.
    rewrite !dom_insert_lookup_L by (by eexists). done.
  - apply (wf_users _ _ Hwf) in Hu. congruence.
Qed.

Lemma handleCreateRoom_total ws k u σ :
  wf σ → total (handleCreateRoom ws k u) σ.
Proof.
  intros Hwf. unfold total. rewrite handleCreateRoom_eq.
  destruct k as [r|]; [|by eexists _, _, _].
  destruct u as [name|]; [|by eexists _, _, _].
  destruct (truthy (Some r)) eqn:Hk; [|by eexists _, _, _].
  destruct (truthy (Some name)); [|by eexists _, _, _].
  cbn [andb]. destruct (rooms σ !! r) as [roomWs|] eqn:Hr; [by eexists _, _, _|].
  eexists _, _, _. split; [done|].
  destruct Hwf as (H1 & H2 & H3 & H4). unfold wf. cbn.
  rewrite !dom_insert_L, <- H1, <- H2. repeat split; try done.
  apply truthy_Some in Hk as (r' & [= <-] & Hne).
  intros [Heq%elem_of_singleton|Hin]%elem_of_union; [by apply Hne|by apply H3].
Qed.

Lemma handleJoinRoom_total ws k u σ :
  wf σ → total (handleJoinRoom ws k u) σ.
Proof.
  intros Hwf. unfold total. rewrite handleJoinRoom_eq.
  destruct k as [r|]; [|by eexists _, _, _].
  destruct u as [name|]; [|by eexists _, _, _].
  destruct (truthy (Some r)) eqn:Hk; [|by eexists _, _, _].
  destruct (truthy (Some name)); [|by eexists _, _, _].
  cbn [andb]. destruct (rooms σ !! r) as [roomWs|] eqn:Hr; [|by eexists _, _, _].
  apply addUserToRoom_total; [done|by eexists].
Qed.

Lemma handleDrawing_total ws d k σ : wf σ → total (handleDrawing ws d k) σ.
Proof.
  intros Hwf. unfold total. rewrite handleDrawing_eq.
  destruct k as [r|]; [|by eexists _, _, _].
  destruct (drawings σ !! r) as [drawing|] eqn:Hd; [|by eexists _, _, _].
  eexists _, _, _. split; [done|]. destruct (truthy (data_type d)); [|done].
  destruct Hwf as (H1 & H2 & H3 & H4). unfold wf. norm_state.
  rewrite dom_insert_lookup_L by (by eexists). done.
Qed.

Lemma handleShape_total ws d k σ : wf σ → total (handleShape ws d k) σ.
Proof.
  intros Hwf. unfold total. rewrite handleShape_eq.
  destruct k as [r|]; [|by eexists _, _, _].
  destruct (drawings σ !! r) as [drawing|] eqn:Hd; [|by eexists _, _, _].
  eexists _, _, _. split; [done|].
  destruct Hwf as (H1 & H2 & H3 & H4). unfold wf. norm_state.
  rewrite dom_insert_lookup_L by (by eexists). done.
Qed.

Lemma moved_wf ws s σ d :
  wf σ → sessions σ !! ws = Some s → wf (moved ws s σ d).
Proof.
  intros Hwf Hs. unfold moved. apply wf_with_sessions; [by apply left_wf|].
  rewrite (proj1 (left_sessions ws s σ)). by eexists.
Qed.

Lemma retargeted_wf ws s σ d :
  wf σ → sessions σ !! ws = Some s → wf (retargeted ws s σ d).
Proof.
  intros Hwf Hs. unfold retargeted. apply wf_with_sessions; [done|by eexists].
Qed.

(** The [try] block throws only on what it rejects up front; a message with
    a usable [type] is handled to the end. *)
Lemma on_message_try_total ws s d now σ :
  wf σ → sessions σ !! ws = Some s → truthy (data_type d) = true →
  total (on_message_try ws (JsonObject d) now) σ.
Proof.
  intros Hwf Hs Ht. apply truthy_Some in Ht as (type & Htype & Hne).
  destruct (switch type) eqn:Hl.
  - unfold total. rewrite (on_message_try_create _ _ _ _ now _ Hs Htype Hne Hl).
    destruct (handleCreateRoom_total ws (currentRoom (adopted s d))
      (usernameServer (adopted s d)) _ (moved_wf _ _ _ d Hwf Hs))
      as (a & σ' & out & -> & Hwf').
    by eexists _, _, _.
  - unfold total. rewrite (on_message_try_join _ _ _ _ now _ Hs Htype Hne Hl).
    destruct (handleJoinRoom_total ws (currentRoom (adopted s d))
      (usernameServer (adopted s d)) _ (moved_wf _ _ _ d Hwf Hs))
      as (a & σ' & out & -> & Hwf').
    by eexists _, _, _.
  - unfold total. rewrite (on_message_try_chat _ _ _ _ now _ Hs Htype Hne Hl).
    eexists _, _, _. split; [done|]. by apply retargeted_wf.
  - unfold total.
    rewrite (on_message_try_start_draw _ _ _ _ now _ Hs Htype Hne Hl).
    apply handleDrawing_total. by apply retargeted_wf.
  - unfold total. rewrite (on_message_try_shape _ _ _ _ now _ Hs Htype Hne Hl).
    apply handleShape_total. by apply retargeted_wf.
  - unfold total. rewrite (on_message_try_default ws σ d now _ Htype Hne Hl).
    by eexists _, _, _.
Qed.

Lemma on_message_wf ws s message now σ :
  wf σ → sessions σ !! ws = Some s → wf (on_message ws message now σ).1.2.
Proof.
  intros Hwf Hs. unfold on_message, try_catch.
  destruct message as [| |d]; try done.
  destruct (truthy (data_type d)) eqn:Ht.
  - destruct (on_message_try_total ws s d now σ Hwf Hs Ht)
      as (a & σ' & out & -> & Hwf'). done.
  - by rewrite on_message_try_untyped.
Qed.

Lemma step_wf σ ev : wf σ → wf (step σ ev).1.
Proof.
  intros Hwf. destruct ev as [|ws message now|ws|ws]; cbn [step].
  - destruct Hwf as (H1 & H2 & H3 & H4). unfold wf, on_connection. cbn.
    repeat split; try done. intros c. rewrite dom_insert_L.
    intros [->%elem_of_singleton|Hc]%elem_of_union; [lia|].
    apply H4 in Hc. lia.
  - destruct (sessions σ !! ws) as [s|] eqn:Hs; [|done].
    pose proof (on_message_wf ws s message now σ Hwf Hs) as H.
    unfold exec. by destruct (on_message ws message now σ) as [[o σ'] out].
  - done.
  - destruct (sessions σ !! ws) as [s|] eqn:Hs; [|done].
    assert (wf (not_open ws σ)) as Hwf0 by done.
    assert (sessions (not_open ws σ) !! ws = Some s) as Hs0 by done.
    unfold on_close, exec. rewrite (leave_current_eq _ _ _ Hs0).
    pose proof (left_wf ws s _ Hwf0) as (H1 & H2 & H3 & H4).
    unfold wf. norm_state. repeat split; try done.
    intros c. rewrite dom_delete_L. intros [Hc _]%elem_of_difference.
    by apply H4.
Qed.

Lemma run_app σ evs1 evs2 :
  run σ (evs1 ++ evs2) =
  ((run (run σ evs1).1 evs2).1, (run σ evs1).2 ++ (run (run σ evs1).1 evs2).2).
Proof.
  revert σ. induction evs1 as [|ev evs1 IH]; intros σ.
  - cbn. by destruct (run σ evs2).
  - cbn [run app]. destruct (step σ ev) as [σ1 out1]. rewrite IH.
    destruct (run σ1 evs1) as [σ2 out2]. cbn.
    by rewrite app_assoc.
Qed.

Lemma run_wf σ evs : wf σ → wf (run σ evs).1.
Proof.
  revert σ. induction evs as [|ev evs IH]; intros σ Hwf; [done|].
  cbn [run]. pose proof (step_wf σ ev Hwf) as H1.
  destruct (step σ ev) as [σ1 out1]. specialize (IH σ1 H1).
  by destruct (run σ1 evs).
Qed.

Lemma reachable_wf σ : reachable σ → wf σ.
Proof. intros [evs <-]. apply run_wf, wf_initial. Qed.

Lemma reachable_step σ ev : reachable σ → reachable (step σ ev).1.
Proof.
  intros [evs <-]. exists (evs ++ [ev]). rewrite run_app. cbn.
  destruct (step _ ev) as [σ1 out1]. done.
Qed.

(** ** One message, start to end *)

Lemma step_message σ ws s message now :
  sessions σ !! ws = Some s →
  step σ (Message ws message now) = exec (on_message ws message now) σ.
Proof. intros Hs. cbn [step]. by rewrite Hs. Qed.

Lemma on_message_returned ws message now σ a σ' out :
  on_message_try ws message now σ = (Returned a, σ', out) →
  exec (on_message ws message now) σ = (σ', out).
Proof. intros H. unfold exec, on_message, try_catch. by rewrite H. Qed.

Lemma on_message_thrown ws message now σ σ' out :
  on_message_try ws message now σ = (Thrown, σ', out) →
  exec (on_message ws message now) σ =
  (σ', out ++ send_out (readyOpen σ') ws (EError "Invalid data format")).
Proof. intros H. unfold exec, on_message, try_catch. by rewrite H. Qed.

Lemma relayed_switch type :
  type ∈ relayed →
  type ≠ EmptyString ∧
  (switch type = chat ∨ switch type = start_draw ∨ switch type = shape).
Proof.
  unfold relayed. rewrite !elem_of_cons, elem_of_nil.
  intros [->|[->|[->|[->|[->|[->|[->|[]]]]]]]]; split; try done; cbn; auto.
Qed.

Lemma send_out_open open ws e : ws ∈ open → send_out open ws e = [(ws, e)].
Proof. intros H. unfold send_out. by rewrite bool_decide_eq_true_2. Qed.

(** ** Messages the router turns away *)

Lemma rejected_thrown ws message now σ :
  rejected message = true → on_message_try ws message now σ = (Thrown, σ, []).
Proof.
  destruct message as [| |d]; cbn [rejected]; try done.
  intros Ht%negb_true_iff. by apply on_message_try_untyped.
Qed.







(** ** Messages relayed to the other members *)

Lemma relayed_state ws s σ d now type :
  sessions σ !! ws = Some s → data_type d = Some type → type ∈ relayed →
  ∃ σ' out,
    step σ (Message ws (JsonObject d) now) = (σ', out) ∧
    sessions σ' = <[ws := Session (data_roomId d) (usernameServer s)]> (sessions σ) ∧
    rooms σ' = rooms σ ∧ users σ' = users σ ∧
    readyOpen σ' = readyOpen σ ∧ nextWs σ' = nextWs σ ∧
    drawings σ' =
      match data_roomId d with
      | Some r =>
          match drawings σ !! r with
          | Some drawing => <[r := logged type drawing d]> (drawings σ)
          | None => drawings σ
          end
      | None => drawings σ
      end ∧
    (out = [] ∨
     ∃ roomWs, Map_get (rooms σ) (data_roomId d) = Some roomWs ∧
       out = fanout (readyOpen σ) roomWs (Some ws) (relay_envelope type s d now)) ∧
    (Map_get (rooms σ) (data_roomId d) = None → out = []) ∧
    (wf σ → ∀ roomWs, Map_get (rooms σ) (data_roomId d) = Some roomWs →
       out = fanout (readyOpen σ) roomWs (Some ws) (relay_envelope type s d now)).
Proof.
  intros Hs Htype Hrel. rewrite (step_message _ _ _ _ _ Hs).
  destruct (relayed_switch _ Hrel) as (Hne & Hl).
  assert (Hcases : type = "chat" ∨ switch type = start_draw ∧
            String.eqb type "chat" = false ∧ String.eqb type "clear" = false
          ∨ switch type = shape ∧ String.eqb type "chat" = false).
  { clear -Hrel. unfold relayed in Hrel. revert Hrel.
    rewrite !elem_of_cons, elem_of_nil.
    intros [->|[->|[->|[->|[->|[->|[->|[]]]]]]]]; cbn; auto. }
  clear Hl. destruct Hcases as [->|[(Hl & Hc1 & Hc2)|(Hl & Hc1)]].
  - eexists _, _. split.
    { apply (on_message_returned _ _ _ _ tt).
      by apply (on_message_try_chat ws s σ d now "chat"). }
    unfold retargeted, logged, relay_envelope. norm_state. cbn [String.eqb].
    repeat split; try done.
    + destruct (data_roomId d) as [r|]; [|done].
      destruct (drawings σ !! r) eqn:Hd; [|done]. by rewrite insert_id.
    + destruct (Map_get (rooms σ) (data_roomId d)); [right|left]; eauto.
    + by intros ->.
    + by intros _ roomWs ->.
  - pose proof (on_message_try_start_draw ws s σ d now type Hs Htype Hne Hl) as Heq.
    rewrite handleDrawing_eq in Heq. unfold retargeted in Heq.
    unfold logged, relay_envelope. rewrite Hc1, Hc2.
    assert (truthy (data_type d) = true) as Ht
      by (rewrite Htype; by apply truthy_nonempty).
    rewrite Ht in Heq. norm_state.
    destruct (data_roomId d) as [r|]; norm_state.
    + destruct (drawings σ !! r) as [drawing|] eqn:Hd.
      * eexists _, _. split; [by apply (on_message_returned _ _ _ _ tt)|].
        norm_state. repeat split; try done.
        -- destruct (rooms σ !! r); [right|left]; eauto.
        -- by intros ->.
        -- by intros _ roomWs ->.
      * eexists _, _. split; [by apply (on_message_returned _ _ _ _ tt)|].
        norm_state. repeat split; try done; [by left|].
        intros Hwf roomWs Hr. apply (wf_drawings _ _ Hwf) in Hd. congruence.
    + eexists _, _. split; [by apply (on_message_returned _ _ _ _ tt)|].
      norm_state. repeat split; try done. by left.
  - pose proof (on_message_try_shape ws s σ d now type Hs Htype Hne Hl) as Heq.
    rewrite handleShape_eq in Heq. unfold retargeted in Heq.
    unfold logged, relay_envelope. rewrite Hc1.
    assert ((if bool_decide (data_type d ≠ Some "clear")
             then λ drawing : list data, drawing ++ [d] else λ _, [])
            = (λ drawing, if String.eqb type "clear" then [] else drawing ++ [d]))
      as Hlog.
    { rewrite Htype. destruct (String.eqb_spec type "clear") as [->|Hn].
      - by rewrite bool_decide_eq_false_2 by (intros H; by apply H).
      - by rewrite bool_decide_eq_true_2 by congruence. }
    norm_state.
    destruct (data_roomId d) as [r|]; norm_state.
    + destruct (drawings σ !! r) as [drawing|] eqn:Hd.
      * eexists _, _. split; [by apply (on_message_returned _ _ _ _ tt)|].
        norm_state. repeat split; try done.
        -- f_equal. apply (f_equal (λ f, f drawing)) in Hlog. cbv beta in Hlog.
           rewrite <- Hlog. by destruct (bool_decide _).
        -- destruct (rooms σ !! r); [right|left]; eauto.
        -- by intros ->.
        -- by intros _ roomWs ->.
      * eexists _, _. split; [by apply (on_message_returned _ _ _ _ tt)|].
        norm_state. repeat split; try done; [by left|].
        intros Hwf roomWs Hr. apply (wf_drawings _ _ Hwf) in Hd. congruence.
    + eexists _, _. split; [by apply (on_message_returned _ _ _ _ tt)|].
      norm_state. repeat split; try done. by left.
Qed.

(** C9.  In every reachable state, a [chat], [start], [draw], [text],
    [rectangle], [circle] or [clear] message whose [roomId] is not a key of
    [rooms] (or is absent) leaves the three maps as they are and writes
    nothing to any socket, the sender's included. *)
Theorem C9_message_for_absent_room_is_dropped σ ws d now type :
  reachable σ → data_type d = Some type → type ∈ relayed →
  Map_get (rooms σ) (data_roomId d) = None →
  registry (step σ (Message ws (JsonObject d) now)).1 = registry σ ∧
  (step σ (Message ws (JsonObject d) now)).2 = [].
Proof.
  intros Hreach%reachable_wf Htype Hrel Hroom.
  destruct (sessions σ !! ws) as [s|] eqn:Hs; [|by cbn [step]; rewrite Hs].
  destruct (relayed_state ws s σ d now type Hs Htype Hrel)
    as (σ' & out & -> & _ & Hr & Hu & _ & _ & Hd & _ & Hout & _).
  cbn [fst snd]. split; [|by apply Hout].
  unfold registry. rewrite Hr, Hu, Hd.
  destruct (data_roomId d) as [r|]; [|done]. cbn [Map_get] in Hroom.
  apply (wf_drawings _ _ Hreach) in Hroom. by rewrite Hroom.
Qed.

Lemma C9_witness :
  let σ := (run initial [Connection]).1 in
  let ev := Message 0 (JsonObject (Data (Some "draw") (Some "nowhere") None None "{}")) 7 in
  registry (step σ ev).1 = registry σ ∧ (step σ ev).2 = [].
Proof.
  intros σ ev.
  apply (C9_message_for_absent_room_is_dropped σ 0
           (Data (Some "draw") (Some "nowhere") None None "{}") 7 "draw");
    [by exists [Connection] | reflexivity | | reflexivity].
  unfold relayed. rewrite !elem_of_cons. tauto.
Defined.

(** C7, amended.  Handling a [chat], [start], [draw], [text], [rectangle],
    [circle] or [clear] message leaves [usernameServer] of the sender as it
    was and assigns the message's [roomId] (absent or not) to its
    [currentRoom]; the closure variables of every other connection are
    unchanged. *)
Theorem C7_relayed_message_sets_currentRoom σ ws s d now type :
  sessions σ !! ws = Some s → data_type d = Some type → type ∈ relayed →
  sessions (step σ (Message ws (JsonObject d) now)).1
  = <[ws := Session (data_roomId d) (usernameServer s)]> (sessions σ).
Proof.
  intros Hs Htype Hrel.
  destruct (relayed_state ws s σ d now type Hs Htype Hrel)
    as (σ' & out & -> & Hsess & _). done.
Qed.

Lemma C7_witness :
  let σ := (run initial [Connection]).1 in
  sessions (step σ (Message 0 (JsonObject
              (Data (Some "chat") (Some "r2") None (Some "hi") "{}")) 7)).1
  = <[0 := Session (Some "r2") None]> (sessions σ).
Proof.
  intros σ.
  apply (C7_relayed_message_sets_currentRoom σ 0 (Session None None)
           (Data (Some "chat") (Some "r2") None (Some "hi") "{}") 7 "chat");
    [reflexivity | reflexivity |].
  unfold relayed. rewrite !elem_of_cons. tauto.
Defined.

(** C7 as stated fails: a connection that created room r1 and then sends a
    [chat] naming r2 has [currentRoom] r2 afterwards. *)
Lemma C7_chat_changes_currentRoom :
  let σ := (run initial
              [Connection;
               Message 0 (JsonObject (Data (Some "create_room") (Some "r1")
                                        (Some "alice") None "{}")) 1]).1 in
  sessions σ !! 0 = Some (Session (Some "r1") (Some "alice")) ∧
  sessions (step σ (Message 0 (JsonObject
              (Data (Some "chat") (Some "r2") None (Some "hi") "{}")) 2)).1 !! 0
  = Some (Session (Some "r2") (Some "alice")).
Proof. by vm_compute. Qed.

(** ** Leaving the current room *)

Lemma length_zero_nil {A} (l : list A) : Nat.eqb (List.length l) 0 = true ↔ l = [].
Proof. destruct l; cbn; split; done. Qed.

Lemma left_cases ws s σ : left_spec ws s σ (left ws s σ).
Proof.
  unfold left. destruct (truthy (currentRoom s)) eqn:Ht;
    [|apply left_nothing; auto].
  apply truthy_Some in Ht as (r & Hk & Hne).
  unfold exec. rewrite leaveRoom_eq, Hk.
  destruct (rooms σ !! r) as [roomWs|] eqn:Hr;
    [|apply left_nothing; rewrite Hk; auto].
  destruct (users σ !! r) as [roomUsers|] eqn:Hu;
    [|apply left_nothing; rewrite Hk; auto].
  cbv zeta.
  destruct (Nat.eqb (List.length (Set_delete ws roomWs)) 0) eqn:H1; cbn [andb].
  - destruct (Nat.eqb (List.length (Set_delete_js (usernameServer s) roomUsers)) 0)
      eqn:H2.
    + apply length_zero_nil in H1, H2. by eapply left_deleted.
    + eapply left_remaining; try done. intros [_ H%length_zero_nil]. congruence.
  - eapply left_remaining; try done. intros [H%length_zero_nil _]. congruence.
Qed.

Lemma left_out_not_self ws s σ e : (ws, e) ∉ (left ws s σ).2.
Proof.
  destruct (left_cases ws s σ); cbn [snd]; try apply not_elem_of_nil.
  intros (_ & _ & Hskip & _)%fanout_elem. done.
Qed.

Lemma left_quiet ws s σ :
  truthy (currentRoom s) = false ∨ Map_get (rooms σ) (currentRoom s) = None →
  left ws s σ = (σ, []).
Proof.
  intros H. unfold left. destruct (truthy (currentRoom s)) eqn:Ht; [|done].
  destruct H as [H|H]; [done|].
  unfold exec. rewrite leaveRoom_eq.
  destruct (currentRoom s) as [r|]; [|done]. cbn [Map_get] in H. by rewrite H.
Qed.

Lemma left_other_room ws s σ r :
  currentRoom s ≠ Some r →
  rooms (left ws s σ).1 !! r = rooms σ !! r ∧
  users (left ws s σ).1 !! r = users σ !! r ∧
  drawings (left ws s σ).1 !! r = drawings σ !! r.
Proof.
  intros Hk. destruct (left_cases ws s σ) as [|r'|r']; cbn; [done|..];
    assert (r' ≠ r) by congruence.
  - by rewrite !lookup_delete_ne.
  - by rewrite !lookup_insert_ne.
Qed.

Lemma left_drawings ws s σ r :
  is_Some (rooms (left ws s σ).1 !! r) →
  drawings (left ws s σ).1 !! r = drawings σ !! r.
Proof.
  destruct (left_cases ws s σ) as [|r'|r']; cbn; [done|..].
  - destruct (decide (r' = r)) as [->|].
    + rewrite lookup_delete_eq. by intros [? ?].
    + by rewrite !lookup_delete_ne.
  - done.
Qed.




Lemma adopted_named s d r name :
  data_roomId d = Some r → r ≠ EmptyString →
  data_username d = Some name → name ≠ EmptyString →
  adopted s d = Session (Some r) (Some name).
Proof.
  intros Hr Hne Hu Hne'. unfold adopted.
  by rewrite Hr, Hu, !truthy_nonempty.
Qed.

(** ** Creating a room that exists *)

(** C5, amended.  A [create_room] message that carries a room id and a
    username, names a room that is in the registry, and comes from a
    connection that has no room to leave first ([currentRoom] is unset, empty,
    or not a key of [rooms]) changes none of the three maps, and the only
    write to any socket is the [room_already_exist] notice to the sender.
    (When the connection has a current room in the registry, the router runs
    [leaveRoom] on it before it looks at the requested id.) *)
Theorem C5_create_existing_room_without_prior_room σ ws s d now r name roomWs :
  sessions σ !! ws = Some s →
  data_type d = Some "create_room" →
  data_roomId d = Some r → r ≠ EmptyString →
  data_username d = Some name → name ≠ EmptyString →
  rooms σ !! r = Some roomWs →
  truthy (currentRoom s) = false ∨ Map_get (rooms σ) (currentRoom s) = None →
  ws ∈ readyOpen σ →
  registry (step σ (Message ws (JsonObject d) now)).1 = registry σ ∧
  (step σ (Message ws (JsonObject d) now)).2
  = [(ws, ERoomAlreadyExist r (r +:+ " already existed..."))].
Proof.
  intros Hs Htype Hr Hne Hu Hne' Hroom Hprior Hopen.
  rewrite (step_message _ _ _ _ _ Hs).
  pose proof (on_message_try_create ws s σ d now "create_room" Hs Htype
                ltac:(done) eq_refl) as Heq.
  unfold moved in Heq. rewrite (left_quiet _ _ _ Hprior) in Heq.
  rewrite (adopted_named s d r name Hr Hne Hu Hne') in Heq.
  rewrite handleCreateRoom_eq in Heq. norm_state.
  rewrite !truthy_nonempty in Heq by done. cbn [andb] in Heq.
  rewrite Hroom in Heq. rewrite (on_message_returned _ _ _ _ _ _ _ Heq).
  norm_state. by rewrite send_out_open.
Qed.

Lemma C5_witness :
  let σ := (run initial
              [Connection; Connection;
               Message 0 (JsonObject (Data (Some "create_room") (Some "r1")
                                        (Some "alice") None "{}")) 1]).1 in
  let ev := Message 1 (JsonObject (Data (Some "create_room") (Some "r1")
                                     (Some "bob") None "{}")) 2 in
  registry (step σ ev).1 = registry σ ∧
  (step σ ev).2 = [(1, ERoomAlreadyExist "r1" "r1 already existed...")].
Proof.
  intros σ ev.
  apply (C5_create_existing_room_without_prior_room σ 1 (Session None None)
           (Data (Some "create_room") (Some "r1") (Some "bob") None "{}") 2
           "r1" "bob" [0]);
    try reflexivity; try done; try (by left); by vm_compute.
Defined.

(** C5 as stated fails when the requester is in the room it asks to create:
    with connections 0 and 1 in r1, [create_room] r1 from 0 removes 0 from
    the members and alice from the usernames, and connection 1 is sent
    [user_left] besides the notice that goes to 0. *)
Lemma C5_create_own_room_leaves_it :
  let σ := (run initial
              [Connection; Connection;
               Message 0 (JsonObject (Data (Some "create_room") (Some "r1")
                                        (Some "alice") None "{}")) 1;
               Message 1 (JsonObject (Data (Some "join_room") (Some "r1")
                                        (Some "bob") None "{}")) 2]).1 in
  let ev := Message 0 (JsonObject (Data (Some "create_room") (Some "r1")
                                     (Some "alice") None "{}")) 3 in
  rooms σ !! "r1" = Some [0; 1] ∧ users σ !! "r1" = Some ["alice"; "bob"] ∧
  rooms (step σ ev).1 !! "r1" = Some [1] ∧
  users (step σ ev).1 !! "r1" = Some ["bob"] ∧
  (step σ ev).2
  = [(1, EUserLeft ["bob"] (Some "alice") "r1" 1 "alice left the room");
     (0, ERoomAlreadyExist "r1" "r1 already existed...")].
Proof. by vm_compute. Qed.

(** ** Joining the room one is alone in *)

(** C10, amended.  In a reachable state, let connection [ws], whose
    closure variables hold room [R] and its username, be the only member of
    [R], with that username the only one of [R].  A [join_room] message from
    it naming [R] removes [R] from the three maps (its drawing log with it),
    and the only write to any socket is the [no_room] reply to the sender.
    Afterwards [ws] is no member of [R], and every other room has the
    members, usernames and drawing log it had; so [ws] is in no room if it
    was in no other room before. *)
Theorem C10_sole_member_rejoining_its_room_deletes_it σ ws d now R name :
  reachable σ →
  sessions σ !! ws = Some (Session (Some R) (Some name)) →
  name ≠ EmptyString →
  rooms σ !! R = Some [ws] → users σ !! R = Some [name] →
  ws ∈ readyOpen σ →
  data_type d = Some "join_room" → data_roomId d = Some R →
  let σ' := (step σ (Message ws (JsonObject d) now)).1 in
  rooms σ' !! R = None ∧ users σ' !! R = None ∧ drawings σ' !! R = None ∧
  (step σ (Message ws (JsonObject d) now)).2
    = [(ws, ENoRoom ("Room " +:+ R +:+ " does not exist"))] ∧
  (∀ r, r ≠ R →
        rooms σ' !! r = rooms σ !! r ∧ users σ' !! r = users σ !! r ∧
        drawings σ' !! r = drawings σ !! r) ∧
  ((∀ r roomWs, rooms σ !! r = Some roomWs → ws ∈ roomWs → r = R) →
   ∀ r roomWs, rooms σ' !! r = Some roomWs → ws ∉ roomWs).
Proof.
  intros Hreach%reachable_wf Hs Hname Hroom Husers Hopen Htype Hid.
  pose proof (wf_key _ _ _ Hreach Hroom) as HR.
  set (s := Session (Some R) (Some name)) in *.
  rewrite (step_message _ _ _ _ _ Hs).
  pose proof (on_message_try_join ws s σ d now "join_room" Hs Htype
                ltac:(done) eq_refl) as Heq.
  assert (left ws s σ =
          (State (delete R (rooms σ)) (delete R (users σ)) (delete R (drawings σ))
                 (sessions σ) (readyOpen σ) (nextWs σ), [])) as Hleft.
  { unfold left, exec. cbn [s currentRoom usernameServer].
    rewrite truthy_nonempty by done.
    rewrite leaveRoom_eq, Hroom, Husers. cbn [Set_delete_js].
    unfold Set_delete. rewrite !filter_cons, !filter_nil.
    rewrite !decide_False by (intros H; by apply H). done. }
  assert (currentRoom (adopted s d) = Some R ∧
          ∃ name', usernameServer (adopted s d) = Some name' ∧
                   name' ≠ EmptyString) as (Hk & name' & Hu & Hname').
  { unfold adopted. rewrite Hid.
    destruct (truthy (Some R) && truthy (data_username d)) eqn:Hb.
    - apply andb_true_iff in Hb as [_ (n & -> & Hn)%truthy_Some]. cbn. eauto.
    - cbn. eauto. }
  unfold moved in Heq. rewrite Hleft, Hk, Hu in Heq.
  rewrite handleJoinRoom_eq in Heq. norm_state.
  rewrite !truthy_nonempty in Heq by done. cbn [andb] in Heq.
  rewrite lookup_delete_eq in Heq.
  rewrite (on_message_returned _ _ _ _ _ _ _ Heq). cbv zeta. norm_state.
  rewrite !lookup_delete_eq, send_out_open by done.
  repeat split; try done.
  - by apply lookup_delete_ne.
  - by apply lookup_delete_ne.
  - by apply lookup_delete_ne.
  - intros Honly r roomWs Hr Hin. destruct (decide (R = r)) as [<-|Hne].
    + by rewrite lookup_delete_eq in Hr.
    + rewrite lookup_delete_ne in Hr by done. apply Hne. symmetry. eauto.
Qed.

Lemma C10_witness :
  let σ := (run initial
              [Connection;
               Message 0 (JsonObject (Data (Some "create_room") (Some "r1")
                                        (Some "alice") None "{}")) 1;
               Message 0 (JsonObject (Data (Some "draw") (Some "r1")
                                        None None "{}")) 2]).1 in
  let ev := Message 0 (JsonObject (Data (Some "join_room") (Some "r1")
                                     (Some "alice") None "{}")) 3 in
  rooms (step σ ev).1 !! "r1" = None ∧ users (step σ ev).1 !! "r1" = None ∧
  drawings (step σ ev).1 !! "r1" = None ∧
  (step σ ev).2 = [(0, ENoRoom "Room r1 does not exist")] ∧
  (∀ r, r ≠ "r1" →
        rooms (step σ ev).1 !! r = rooms σ !! r ∧
        users (step σ ev).1 !! r = users σ !! r ∧
        drawings (step σ ev).1 !! r = drawings σ !! r) ∧
  (∀ r roomWs, rooms (step σ ev).1 !! r = Some roomWs → 0 ∉ roomWs).
Proof.
  intros σ ev.
  assert (reachable σ) as Hreach by (by eexists).
  assert (0 ∈ readyOpen σ) as Hopen by (by vm_compute).
  assert ("alice" ≠ EmptyString) as Hname by done.
  destruct (C10_sole_member_rejoining_its_room_deletes_it σ 0
              (Data (Some "join_room") (Some "r1") (Some "alice") None "{}") 3
              "r1" "alice" Hreach eq_refl Hname eq_refl eq_refl Hopen
              eq_refl eq_refl)
    as (H1 & H2 & H3 & H4 & H5 & H6).
  split; [exact H1|]. split; [exact H2|]. split; [exact H3|].
  split; [exact H4|]. split; [exact H5|].
  apply H6. intros r roomWs Hr Hin.
  destruct (decide (r = "r1")) as [->|Hne]; [done|].
  exfalso. revert Hr.
  assert (rooms σ = <["r1" := [0]]> ∅) as -> by (by vm_compute).
  rewrite lookup_insert_ne by done. by rewrite lookup_empty.
Defined.

(** C10 as stated fails in its last part: connection 0 creates r1, sends a
    [chat] naming r9, and creates r2.  It is then the only member of r2, its
    username the only one there, and r2 is its current room.  Its [join_room]
    for r2 deletes r2 and is answered with [no_room], but afterwards 0 is
    still in the members set of r1. *)
Lemma C10_rejoining_connection_is_still_in_another_room :
  let σ := (run initial
              [Connection;
               Message 0 (JsonObject (Data (Some "create_room") (Some "r1")
                                        (Some "alice") None "{}")) 1;
               Message 0 (JsonObject (Data (Some "chat") (Some "r9") None
                                        (Some "hi") "{}")) 2;
               Message 0 (JsonObject (Data (Some "create_room") (Some "r2")
                                        (Some "alice") None "{}")) 3]).1 in
  let ev := Message 0 (JsonObject (Data (Some "join_room") (Some "r2")
                                     (Some "alice") None "{}")) 4 in
  rooms σ !! "r2" = Some [0] ∧ users σ !! "r2" = Some ["alice"] ∧
  sessions σ !! 0 = Some (Session (Some "r2") (Some "alice")) ∧
  rooms (step σ ev).1 !! "r2" = None ∧
  (step σ ev).2 = [(0, ENoRoom "Room r2 does not exist")] ∧
  rooms (step σ ev).1 !! "r1" = Some [0].
Proof. by vm_compute. Qed.

(** ** Joining a room *)

(** A [join_room] for a room of the registry other than the current one. *)
Lemma join_step σ ws s d now r name roomWs :
  wf σ → sessions σ !! ws = Some s →
  data_type d = Some "join_room" →
  data_roomId d = Some r → r ≠ EmptyString →
  data_username d = Some name → name ≠ EmptyString →
  rooms σ !! r = Some roomWs → currentRoom s ≠ Some r →
  ∃ roomUsers, users σ !! r = Some roomUsers ∧
    step σ (Message ws (JsonObject d) now) =
    (State (<[r := Set_add ws roomWs]> (rooms (left ws s σ).1))
           (<[r := Set_add name roomUsers]> (users (left ws s σ).1))
           (drawings (left ws s σ).1)
           (<[ws := Session (Some r) (Some name)]> (sessions σ))
           (readyOpen σ) (nextWs σ),
     (left ws s σ).2 ++
       fanout (readyOpen σ) (Set_add ws roomWs) None
         (joined_notice σ ws r name roomWs roomUsers)).
Proof.
  intros Hwf Hs Htype Hr Hne Hu Hne' Hroom Hcur.
  destruct (users σ !! r) as [roomUsers|] eqn:Husers;
    [|apply (wf_users _ _ Hwf) in Husers; congruence].
  exists roomUsers. split; [done|].
  rewrite (step_message _ _ _ _ _ Hs).
  pose proof (on_message_try_join ws s σ d now "join_room" Hs Htype
                ltac:(done) eq_refl) as Heq.
  unfold moved in Heq.
  rewrite (adopted_named s d r name Hr Hne Hu Hne') in Heq.
  destruct (left_other_room ws s σ r Hcur) as (Hr1 & Hr2 & Hr3).
  destruct (left_sessions ws s σ) as (Hl1 & Hl2 & Hl3).
  rewrite handleJoinRoom_eq in Heq. unfold moved in Heq. norm_state.
  rewrite !truthy_nonempty in Heq by done. cbn [andb] in Heq.
  rewrite Hr1, Hroom in Heq. rewrite addUserToRoom_eq in Heq. norm_state.
  rewrite Hr1, Hroom, Hr2, Husers, Hr3, Hl1, Hl2, Hl3 in Heq.
  cbv zeta in Heq.
  by rewrite (on_message_returned _ _ _ _ _ _ _ Heq).
Qed.

(** A [create_room] for an id that is not in the registry. *)
Lemma create_step σ ws s d now r name :
  sessions σ !! ws = Some s →
  data_type d = Some "create_room" →
  data_roomId d = Some r → r ≠ EmptyString →
  data_username d = Some name → name ≠ EmptyString →
  rooms (left ws s σ).1 !! r = None →
  step σ (Message ws (JsonObject d) now) =
  (State (<[r := [ws]]> (rooms (left ws s σ).1))
         (<[r := [name]]> (users (left ws s σ).1))
         (<[r := []]> (drawings (left ws s σ).1))
         (<[ws := Session (Some r) (Some name)]> (sessions σ))
         (readyOpen σ) (nextWs σ),
   (left ws s σ).2 ++
     fanout (readyOpen σ) [ws] None
       (EUserJoined (Some []) [name] name r 1
          (name +:+ " joined the room: " +:+ r))).
Proof.
  intros Hs Htype Hr Hne Hu Hne' Hroom.
  rewrite (step_message _ _ _ _ _ Hs).
  pose proof (on_message_try_create ws s σ d now "create_room" Hs Htype
                ltac:(done) eq_refl) as Heq.
  unfold moved in Heq.
  rewrite (adopted_named s d r name Hr Hne Hu Hne') in Heq.
  destruct (left_sessions ws s σ) as (Hl1 & Hl2 & Hl3).
  rewrite handleCreateRoom_eq in Heq. unfold moved in Heq. norm_state.
  rewrite !truthy_nonempty in Heq by done. cbn [andb] in Heq.
  rewrite Hroom, Hl1, Hl2, Hl3 in Heq.
  by rewrite (on_message_returned _ _ _ _ _ _ _ Heq).
Qed.

Lemma left_absent_stays ws s σ r :
  rooms σ !! r = None → rooms (left ws s σ).1 !! r = None.
Proof.
  intros Hr. destruct (left_cases ws s σ) as [|r'|r']; cbn; [done|..].
  - destruct (decide (r' = r)) as [->|];
      [apply lookup_delete_eq | by rewrite lookup_delete_ne].
  - rewrite lookup_insert_ne; [done|congruence].
Qed.

Lemma send_out_elem open ws e c e' :
  (c, e') ∈ send_out open ws e → c = ws ∧ e' = e.
Proof.
  unfold send_out. destruct (bool_decide _); [|by intros ?%elem_of_nil].
  by intros [= -> ->]%list_elem_of_singleton.
Qed.

Lemma left_out_not_joined ws s σ c e :
  (c, e) ∈ (left ws s σ).2 → ¬ is_user_joined e.
Proof.
  destruct (left_cases ws s σ); cbn [snd]; try by intros ?%elem_of_nil.
  intros (-> & _)%fanout_elem. by intros [].
Qed.

Lemma addUserToRoom_out_self ws r name σ c e :
  ws ∈ readyOpen σ →
  (c, e) ∈ (addUserToRoom ws r name σ).2 → (ws, e) ∈ (addUserToRoom ws r name σ).2.
Proof.
  intros Hopen. rewrite addUserToRoom_eq.
  destruct (rooms σ !! r) as [roomWs|]; [|by intros ?%elem_of_nil]. cbv zeta.
  destruct (users σ !! r) as [roomUsers|]; [|by intros ?%elem_of_nil].
  cbn [snd]. intros (-> & _)%fanout_elem. apply fanout_elem.
  repeat split; try done. apply elem_of_Set_add. by left.
Qed.

Lemma handleJoinRoom_out_self ws k u σ c e :
  ws ∈ readyOpen σ →
  (c, e) ∈ (handleJoinRoom ws k u σ).2 → is_user_joined e →
  (ws, e) ∈ (handleJoinRoom ws k u σ).2.
Proof.
  intros Hopen. rewrite handleJoinRoom_eq.
  destruct k as [r|]; [|by intros [_ ->]%send_out_elem].
  destruct u as [name|]; [|by intros [_ ->]%send_out_elem].
  destruct (truthy (Some r) && truthy (Some name));
    [|by intros [_ ->]%send_out_elem].
  destruct (rooms σ !! r); [|by intros [_ ->]%send_out_elem].
  intros Hin _. by apply (addUserToRoom_out_self ws r name σ c).
Qed.

Lemma handleCreateRoom_out_self ws k u σ c e :
  ws ∈ readyOpen σ →
  (c, e) ∈ (handleCreateRoom ws k u σ).2 → is_user_joined e →
  (ws, e) ∈ (handleCreateRoom ws k u σ).2.
Proof.
  intros Hopen. rewrite handleCreateRoom_eq.
  destruct k as [r|]; [|by intros [_ ->]%send_out_elem].
  destruct u as [name|]; [|by intros [_ ->]%send_out_elem].
  destruct (truthy (Some r) && truthy (Some name));
    [|by intros [_ ->]%send_out_elem].
  destruct (rooms σ !! r); [by intros [_ ->]%send_out_elem|]. cbn [snd].
  intros (-> & _)%fanout_elem _. apply fanout_elem.
  repeat split; try done. by apply list_elem_of_singleton.
Qed.

(** What a [create_room] or [join_room] writes in a well-formed state: the
    writes of the leave, then those of the room handler. *)
Lemma room_message_out σ ws s d now type :
  wf σ → sessions σ !! ws = Some s → data_type d = Some type →
  type = "create_room" ∨ type = "join_room" →
  (step σ (Message ws (JsonObject d) now)).2 =
  (left ws s σ).2 ++
  (if String.eqb type "create_room"
   then (handleCreateRoom ws (currentRoom (adopted s d))
           (usernameServer (adopted s d)) (moved ws s σ d)).2
   else (handleJoinRoom ws (currentRoom (adopted s d))
           (usernameServer (adopted s d)) (moved ws s σ d)).2).
Proof.
  intros Hwf Hs Htype Hcase. rewrite (step_message _ _ _ _ _ Hs).
  pose proof (moved_wf ws s σ d Hwf Hs) as Hwf'.
  destruct Hcase as [-> | ->]; cbn [String.eqb Ascii.eqb Bool.eqb].
  - pose proof (on_message_try_create ws s σ d now "create_room" Hs Htype
                  ltac:(done) eq_refl) as Heq.
    destruct (handleCreateRoom_total ws (currentRoom (adopted s d))
                (usernameServer (adopted s d)) _ Hwf')
      as (a & σ' & out & Hrun & _).
    rewrite Hrun in Heq |- *.
    by rewrite (on_message_returned _ _ _ _ _ _ _ Heq).
  - pose proof (on_message_try_join ws s σ d now "join_room" Hs Htype
                  ltac:(done) eq_refl) as Heq.
    destruct (handleJoinRoom_total ws (currentRoom (adopted s d))
                (usernameServer (adopted s d)) _ Hwf')
      as (a & σ' & out & Hrun & _).
    rewrite Hrun in Heq |- *.
    by rewrite (on_message_returned _ _ _ _ _ _ _ Heq).
Qed.

(** C4.  In every reachable state, for an open connection [ws]:
    - whatever a message of [type] [chat], [start], [draw], [text],
      [rectangle], [circle] or [clear] from [ws] causes to be written goes to
      a member of the room it names other than [ws], as the chat envelope or
      as the message itself: [ws] is written nothing;
    - whenever a [create_room] or [join_room] from [ws] causes a
      [user_joined] announcement to be written to anyone, the same
      announcement is written to [ws];
    - a [join_room] for a room of the registry other than the current one of
      [ws] does write the [user_joined] announcement to [ws];
    - a [create_room] for an id that is not in the registry does write the
      [user_joined] announcement to [ws]. *)
Theorem C4_sender_excluded_joiner_included σ ws s now :
  reachable σ → sessions σ !! ws = Some s → ws ∈ readyOpen σ →
  (∀ d type c e,
     data_type d = Some type → type ∈ relayed →
     (c, e) ∈ (step σ (Message ws (JsonObject d) now)).2 →
     c ≠ ws ∧ e = relay_envelope type s d now ∧
     ∃ members, Map_get (rooms σ) (data_roomId d) = Some members ∧ c ∈ members) ∧
  (∀ d type c e,
     data_type d = Some type → type = "create_room" ∨ type = "join_room" →
     (c, e) ∈ (step σ (Message ws (JsonObject d) now)).2 → is_user_joined e →
     (ws, e) ∈ (step σ (Message ws (JsonObject d) now)).2) ∧
  (∀ d r name roomWs roomUsers,
     data_type d = Some "join_room" → data_roomId d = Some r →
     data_username d = Some name → name ≠ EmptyString →
     rooms σ !! r = Some roomWs → users σ !! r = Some roomUsers →
     currentRoom s ≠ Some r →
     (ws, joined_notice σ ws r name roomWs roomUsers)
       ∈ (step σ (Message ws (JsonObject d) now)).2) ∧
  (∀ d r name,
     data_type d = Some "create_room" →
     data_roomId d = Some r → r ≠ EmptyString →
     data_username d = Some name → name ≠ EmptyString →
     rooms σ !! r = None →
     (ws, EUserJoined (Some []) [name] name r 1
            (name +:+ " joined the room: " +:+ r))
       ∈ (step σ (Message ws (JsonObject d) now)).2).
Proof.
  intros Hreach%reachable_wf Hs Hopen. split; [|split; [|split]].
  - intros d type c e Htype Hrel Hin.
    destruct (relayed_state ws s σ d now type Hs Htype Hrel)
      as (σ' & out & Hstep & _ & _ & _ & _ & _ & _ & Hout & _).
    rewrite Hstep in Hin. cbn [snd] in Hin.
    destruct Hout as [->|(members & Hmem & ->)];
      [by apply elem_of_nil in Hin|].
    apply fanout_elem in Hin as (-> & Hin & Hskip & _).
    split; [congruence|]. split; [done|]. eauto.
  - intros d type c e Htype Hcase.
    rewrite (room_message_out σ ws s d now type Hreach Hs Htype Hcase).
    assert (readyOpen (moved ws s σ d) = readyOpen σ) as Hro
      by (unfold moved; norm_state; apply left_sessions).
    rewrite <- Hro in Hopen.
    rewrite !elem_of_app. intros [Hin|Hin] He.
    + by destruct (left_out_not_joined ws s σ c e Hin).
    + right. destruct Hcase as [-> | ->]; cbn [String.eqb Ascii.eqb Bool.eqb] in *.
      * by apply (handleCreateRoom_out_self ws _ _ _ c).
      * by apply (handleJoinRoom_out_self ws _ _ _ c).
  - intros d r name roomWs roomUsers Htype Hr Hu Hne' Hroom Husers Hcur.
    pose proof (wf_key _ _ _ Hreach Hroom) as Hne.
    destruct (join_step σ ws s d now r name roomWs)
      as (roomUsers' & Husers' & ->); try done.
    assert (roomUsers' = roomUsers) as -> by congruence.
    cbn [snd]. apply elem_of_app. right. apply fanout_elem.
    repeat split; try done. apply elem_of_Set_add. by left.
  - intros d r name Htype Hr Hne Hu Hne' Habsent.
    rewrite (create_step σ ws s d now r name); try done;
      [|by apply left_absent_stays].
    cbn [snd]. apply elem_of_app. right. apply fanout_elem.
    repeat split; try done. by apply list_elem_of_singleton.
Qed.

Lemma C4_witness :
  let alice := Data (Some "create_room") (Some "r1") (Some "alice") None "{}" in
  let bob := Data (Some "join_room") (Some "r1") (Some "bob") None "{}" in
  let stroke := Data (Some "draw") (Some "r1") None None "{x:1}" in
  let σ0 := (run initial [Connection; Connection]).1 in
  let σ1 := (step σ0 (Message 0 (JsonObject alice) 1)).1 in
  let σ2 := (step σ1 (Message 1 (JsonObject bob) 2)).1 in
  (∀ c e, (c, e) ∈ (step σ2 (Message 0 (JsonObject stroke) 3)).2 →
     c ≠ 0 ∧
     e = relay_envelope "draw" (Session (Some "r1") (Some "alice")) stroke 3 ∧
     ∃ members, Map_get (rooms σ2) (data_roomId stroke) = Some members ∧
                c ∈ members) ∧
  (∀ c e, (c, e) ∈ (step σ1 (Message 1 (JsonObject bob) 2)).2 →
     is_user_joined e → (1, e) ∈ (step σ1 (Message 1 (JsonObject bob) 2)).2) ∧
  (1, joined_notice σ1 1 "r1" "bob" [0] ["alice"])
    ∈ (step σ1 (Message 1 (JsonObject bob) 2)).2 ∧
  (0, EUserJoined (Some []) ["alice"] "alice" "r1" 1 "alice joined the room: r1")
    ∈ (step σ0 (Message 0 (JsonObject alice) 1)).2.
Proof.
  intros alice bob stroke σ0 σ1 σ2.
  assert (reachable σ0) as R0 by (by exists [Connection; Connection]).
  assert (reachable σ1) as R1 by (by apply reachable_step).
  assert (reachable σ2) as R2 by (by apply reachable_step).
  assert (0 ∈ readyOpen σ2) as O2 by (by vm_compute).
  assert (1 ∈ readyOpen σ1) as O1 by (by vm_compute).
  assert (0 ∈ readyOpen σ0) as O0 by (by vm_compute).
  assert ("draw" ∈ relayed) as Hrel
    by (unfold relayed; rewrite !elem_of_cons; tauto).
  destruct (C4_sender_excluded_joiner_included σ2 0
              (Session (Some "r1") (Some "alice")) 3 R2 eq_refl O2)
    as (Hrelay & _).
  destruct (C4_sender_excluded_joiner_included σ1 1 (Session None None) 2
              R1 eq_refl O1) as (_ & Hany & Hjoin & _).
  destruct (C4_sender_excluded_joiner_included σ0 0 (Session None None) 1
              R0 eq_refl O0) as (_ & _ & _ & Hcreate).
  split; [|split; [|split]].
  - intros c e. by apply (Hrelay stroke "draw").
  - intros c e. apply (Hany bob "join_room"); [done|by right].
  - by apply (Hjoin bob "r1" "bob" [0] ["alice"]).
  - by apply (Hcreate alice "r1" "alice").
Defined.

(** ** Removal of rooms *)

Lemma exec_on_message_state ws message now σ :
  (exec (on_message ws message now) σ).1 = (on_message_try ws message now σ).1.2.
Proof.
  unfold exec, on_message, try_catch.
  by destruct (on_message_try ws message now σ) as [[[] ?] ?].
Qed.

Lemma not_None_is_Some {A} (o : option A) : o ≠ None → is_Some o.
Proof. destruct o; [by eexists|done]. Qed.





(** ** Membership *)

Lemma left_member ws s σ c r : member (left ws s σ).1 c r → member σ c r.
Proof.
  destruct (left_cases ws s σ) as [Hq|r' ? ? Hk|r' roomWs roomUsers Hk Hne Hr];
    intros (l & Hl & Hin); cbn in Hl.
  - by exists l.
  - exists l. split; [|done]. apply lookup_delete_Some in Hl. tauto.
  - destruct (decide (r' = r)) as [->|Hn].
    + rewrite lookup_insert_eq in Hl. injection Hl as <-.
      exists roomWs. split; [done|]. apply elem_of_Set_delete in Hin. tauto.
    + rewrite lookup_insert_ne in Hl by done. by exists l.
Qed.

Lemma left_not_member_current ws s σ r :
  wf σ → currentRoom s = Some r → ¬ member (left ws s σ).1 ws r.
Proof.
  intros Hwf Hk.
  destruct (left_cases ws s σ) as [Hq|r' ? ? Hk'|r' roomWs roomUsers Hk'];
    intros (l & Hl & Hin); cbn in Hl.
  - rewrite Hk in Hq. cbn [Map_get] in Hq.
    pose proof (wf_key _ _ _ Hwf Hl) as Hne.
    rewrite (truthy_nonempty _ Hne) in Hq.
    destruct Hq as [Hq|[Hq|Hq]]; [done|congruence|].
    apply (wf_users _ _ Hwf) in Hq. congruence.
  - assert (r' = r) as -> by congruence. by rewrite lookup_delete_eq in Hl.
  - assert (r' = r) as -> by congruence.
    rewrite lookup_insert_eq in Hl. injection Hl as <-.
    apply elem_of_Set_delete in Hin. tauto.
Qed.

Lemma left_vacates ws s σ r :
  wf σ → housed ws σ → sessions σ !! ws = Some s →
  ¬ member (left ws s σ).1 ws r.
Proof.
  intros Hwf Hh Hs Hm.
  pose proof (Hh r (left_member _ _ _ _ _ Hm)) as Hk.
  rewrite Hs in Hk. cbn in Hk.
  by apply (left_not_member_current ws s σ r Hwf Hk).
Qed.

(** After a room handler, a connection is where it was, or it is the
    sender, now in the room the handler was called for. *)
Lemma addUserToRoom_member ws r' u σ c r :
  member (addUserToRoom ws r' u σ).1.2 c r →
  member σ c r ∨ (c = ws ∧ r = r').
Proof.
  rewrite addUserToRoom_eq.
  destruct (rooms σ !! r') as [roomWs|] eqn:Hr'; [|by left].
  cbv zeta. intros (l & Hl & Hin).
  assert (rooms (State (<[r' := Set_add ws roomWs]> (rooms σ)) (users σ)
                   (drawings σ) (sessions σ) (readyOpen σ) (nextWs σ)) !! r
          = Some l) as Hl'
    by (by destruct (users σ !! r')).
  clear Hl. cbn in Hl'. destruct (decide (r' = r)) as [->|Hn].
  - rewrite lookup_insert_eq in Hl'. injection Hl' as <-.
    apply elem_of_Set_add in Hin as [->|Hin]; [by right|].
    left. by exists roomWs.
  - rewrite lookup_insert_ne in Hl' by done. left. by exists l.
Qed.

Lemma handleCreateRoom_member ws k u σ c r :
  member (handleCreateRoom ws k u σ).1.2 c r →
  member σ c r ∨ (c = ws ∧ k = Some r).
Proof.
  rewrite handleCreateRoom_eq.
  destruct k as [r'|]; [|by left]. destruct u as [name|]; [|by left].
  destruct (truthy (Some r') && truthy (Some name)); [|by left].
  destruct (rooms σ !! r') as [roomWs|] eqn:Hr'; [by left|].
  intros (l & Hl & Hin). cbn in Hl. destruct (decide (r' = r)) as [->|Hn].
  - rewrite lookup_insert_eq in Hl. injection Hl as <-.
    apply list_elem_of_singleton in Hin. by right.
  - rewrite lookup_insert_ne in Hl by done. left. by exists l.
Qed.

Lemma handleJoinRoom_member ws k u σ c r :
  member (handleJoinRoom ws k u σ).1.2 c r →
  member σ c r ∨ (c = ws ∧ k = Some r).
Proof.
  rewrite handleJoinRoom_eq.
  destruct k as [r'|]; [|by left]. destruct u as [name|]; [|by left].
  destruct (truthy (Some r') && truthy (Some name)); [|by left].
  destruct (rooms σ !! r') as [roomWs|] eqn:Hr'; [|by left].
  intros [H|[-> ->]]%addUserToRoom_member; [by left|by right].
Qed.

Lemma addUserToRoom_sessions ws r u σ :
  sessions (addUserToRoom ws r u σ).1.2 = sessions σ.
Proof.
  rewrite addUserToRoom_eq. destruct (rooms σ !! r); [|done].
  cbv zeta. by destruct (users σ !! r).
Qed.

Lemma handleCreateRoom_sessions ws k u σ :
  sessions (handleCreateRoom ws k u σ).1.2 = sessions σ.
Proof.
  rewrite handleCreateRoom_eq.
  destruct k as [r'|]; [|done]. destruct u as [name|]; [|done].
  destruct (truthy (Some r') && truthy (Some name)); [|done].
  by destruct (rooms σ !! r').
Qed.

Lemma handleJoinRoom_sessions ws k u σ :
  sessions (handleJoinRoom ws k u σ).1.2 = sessions σ.
Proof.
  rewrite handleJoinRoom_eq.
  destruct k as [r'|]; [|done]. destruct u as [name|]; [|done].
  destruct (truthy (Some r') && truthy (Some name)); [|done].
  destruct (rooms σ !! r'); [|done]. apply addUserToRoom_sessions.
Qed.

Lemma routed_step σ ws s d now :
  sessions σ !! ws = Some s →
  routed ws s σ d (step σ (Message ws (JsonObject d) now)).1.
Proof.
  intros Hs. rewrite (step_message _ _ _ _ _ Hs), exec_on_message_state.
  destruct (truthy (data_type d)) eqn:Ht;
    [|rewrite (on_message_try_untyped _ _ _ _ Ht); by apply routed_rejected].
  apply truthy_Some in Ht as (type & Htype & Hne).
  destruct (switch type) eqn:Hl.
  - rewrite (on_message_try_create _ _ _ _ now _ Hs Htype Hne Hl).
    pose proof (routed_create ws s σ d type Htype Hl) as H.
    by destruct (handleCreateRoom _ _ _ _) as [[o σ'] out].
  - rewrite (on_message_try_join _ _ _ _ now _ Hs Htype Hne Hl).
    pose proof (routed_join ws s σ d type Htype Hl) as H.
    by destruct (handleJoinRoom _ _ _ _) as [[o σ'] out].
  - rewrite (on_message_try_chat _ _ _ _ now _ Hs Htype Hne Hl).
    eapply routed_relay; eauto.
  - rewrite (on_message_try_start_draw _ _ _ _ now _ Hs Htype Hne Hl).
    rewrite handleDrawing_eq. unfold retargeted.
    eapply routed_relay; eauto;
      (destruct (data_roomId d) as [r'|]; norm_state;
        [destruct (drawings σ !! r'); [destruct (truthy (data_type d))|]|]; done).
  - rewrite (on_message_try_shape _ _ _ _ now _ Hs Htype Hne Hl).
    rewrite handleShape_eq. unfold retargeted.
    eapply routed_relay; eauto;
      (destruct (data_roomId d) as [r'|]; norm_state;
        [destruct (drawings σ !! r')|]; done).
  - rewrite (on_message_try_default ws σ d now _ Htype Hne Hl).
    by eapply routed_default.
Qed.

Lemma moved_member ws s σ d c r :
  member (moved ws s σ d) c r → member σ c r.
Proof. intros Hm. by apply (left_member ws s σ c r). Qed.

Lemma room_handler_housed ws s σ d c σ' :
  wf σ → housed c σ → sessions σ !! ws = Some s →
  sessions σ' = sessions (moved ws s σ d) →
  (∀ r, member σ' c r →
        member (moved ws s σ d) c r ∨
        (c = ws ∧ currentRoom (adopted s d) = Some r)) →
  housed c σ'.
Proof.
  intros Hwf Hh Hs Hsess Hmem r Hm. rewrite Hsess. unfold moved. norm_state.
  rewrite (proj1 (left_sessions ws s σ)).
  destruct (decide (c = ws)) as [->|Hne].
  - rewrite lookup_insert_eq. cbn.
    destruct (Hmem r Hm) as [Hm'|[_ Hk]]; [|done].
    by destruct (left_vacates ws s σ r Hwf Hh Hs).
  - rewrite lookup_insert_ne by done.
    destruct (Hmem r Hm) as [Hm'|[? _]]; [|done].
    apply Hh. by apply (moved_member ws s σ d).
Qed.

Lemma step_housed σ ev c :
  wf σ → housed c σ → ¬ retargets c σ ev → housed c (step σ ev).1.
Proof.
  intros Hwf Hh Hev. destruct ev as [|ws message now|ws|ws].
  - intros r Hm. cbn in Hm |- *. specialize (Hh r Hm).
    destruct (decide (nextWs σ = c)) as [<-|Hne];
      [|by rewrite lookup_insert_ne].
    destruct (sessions σ !! nextWs σ) eqn:Hs; [|done].
    destruct Hwf as (_ & _ & _ & H4).
    assert (nextWs σ < nextWs σ); [|lia].
    apply H4, elem_of_dom. by eexists.
  - destruct (sessions σ !! ws) as [s|] eqn:Hs; [|by cbn [step]; rewrite Hs].
    destruct message as [| |d];
      [rewrite (step_message _ _ _ _ _ Hs), (on_message_thrown _ _ _ _ σ []);
       done..|].
    destruct (routed_step σ ws s d now Hs)
      as [| |type Htype Hl|type Htype Hl|type σ' Htype Hne Hl Hrooms Hsess];
      try done.
    + apply (room_handler_housed ws s σ d); try done.
      * apply handleCreateRoom_sessions.
      * intros r. apply handleCreateRoom_member.
    + apply (room_handler_housed ws s σ d); try done.
      * apply handleJoinRoom_sessions.
      * intros r. apply handleJoinRoom_member.
    + destruct (decide (ws = c)) as [->|Hn].
      * destruct (decide (data_roomId d = (sessions σ !! c ≫= currentRoom)))
          as [Hsame|Hdiff]; [|destruct Hev; cbn; eauto 8].
        intros r (l & Hlook & Hin). rewrite Hsess, lookup_insert_eq. cbn.
        rewrite Hsame. apply Hh. exists l. by rewrite <- Hrooms.
      * intros r (l & Hlook & Hin). rewrite Hsess, lookup_insert_ne by done.
        apply Hh. exists l. by rewrite <- Hrooms.
  - done.
  - cbn [step]. destruct (sessions σ !! ws) as [s|] eqn:Hs; [|done].
    assert (sessions (not_open ws σ) !! ws = Some s) as Hs0 by done.
    unfold on_close, exec. rewrite (leave_current_eq _ _ _ Hs0).
    intros r Hm. norm_state.
    assert (member (left ws s (not_open ws σ)).1 c r) as Hm' by done.
    rewrite (proj1 (left_sessions ws s (not_open ws σ))). cbn [not_open sessions].
    destruct (decide (ws = c)) as [->|Hn].
    + by destruct (left_vacates c s (not_open c σ) r).
    + rewrite lookup_delete_ne by done. apply Hh.
      by apply (left_member ws s (not_open ws σ)).
Qed.

Lemma run_housed σ evs c :
  wf σ → housed c σ → steady c σ evs → housed c (run σ evs).1.
Proof.
  revert σ. induction evs as [|ev evs IH]; intros σ Hwf Hh Hevs; [done|].
  destruct Hevs as [Hev Hevs]. cbn [run].
  pose proof (step_wf σ ev Hwf) as Hwf1.
  pose proof (step_housed σ ev c Hwf Hh Hev) as Hh1.
  destruct (step σ ev) as [σ1 out1]. specialize (IH σ1 Hwf1 Hh1 Hevs).
  by destruct (run σ1 evs).
Qed.

(** X16.  Along every run of the server from its start in which each
    [chat], [start], [draw], [text], [rectangle], [circle] or [clear] message
    that connection [c] sends names the room its [currentRoom] holds at that
    moment (in particular along every run in which [c] sends only
    [create_room] and [join_room] messages; its malformed or unrecognised
    messages, its closing, and every event of every other connection are
    unrestricted), [c] is in the members set of at most one room after each
    event. *)
Theorem X16_at_most_one_room_while_currentRoom_is_kept evs c r1 r2 :
  steady c initial evs →
  member (run initial evs).1 c r1 → member (run initial evs).1 c r2 →
  r1 = r2.
Proof.
  intros Hevs H1 H2.
  assert (housed c (run initial evs).1) as Hh.
  { apply run_housed; [apply wf_initial| |done].
    intros r (l & Hl & _). unfold initial in Hl. cbn [rooms] in Hl.
    by rewrite lookup_empty in Hl. }
  pose proof (Hh r1 H1) as E1. pose proof (Hh r2 H2) as E2. congruence.
Qed.

Lemma X16_witness :
  let evs :=
    [Connection; Connection;
     Message 0 (JsonObject (Data (Some "create_room") (Some "r1")
                              (Some "alice") None "{}")) 1;
     Message 1 (JsonObject (Data (Some "create_room") (Some "r2")
                              (Some "bob") None "{}")) 2;
     Message 0 (JsonObject (Data (Some "draw") (Some "r1") None None "{}")) 3;
     Message 1 (JsonObject (Data (Some "chat") (Some "r1") None None "{}")) 4;
     Message 0 (JsonObject (Data (Some "join_room") (Some "r2")
                              (Some "alice") None "{}")) 5] in
  member (run initial evs).1 0 "r2" ∧ "r2" = "r2".
Proof.
  intros evs.
  assert (member (run initial evs).1 0 "r2") as Hm.
  { exists [1; 0]. split; [reflexivity|]. rewrite !elem_of_cons. tauto. }
  split; [exact Hm|].
  apply (X16_at_most_one_room_while_currentRoom_is_kept evs 0 "r2" "r2");
    [|exact Hm|exact Hm].
  cbn [steady evs]. repeat split; try (by intros []).
  all: intros (Hws & (type & Ht & _ & Hl) & Hr).
  all: try discriminate Hws.
  all: try (injection Ht as <-; destruct Hl as [Hl|[Hl|Hl]]; discriminate Hl).
  all: apply Hr; by vm_compute.
Defined.

(** C1 as stated fails: connection 0 creates r1, sends a [chat] that names
    r2 (a room of connection 1), then joins r2.  The leave before the join
    runs on r2, so 0 stays in r1 and is added to r2. *)
Lemma C1_chat_then_join_is_in_two_rooms :
  let evs :=
    [Connection; Connection;
     Message 0 (JsonObject (Data (Some "create_room") (Some "r1")
                              (Some "alice") None "{}")) 1;
     Message 1 (JsonObject (Data (Some "create_room") (Some "r2")
                              (Some "bob") None "{}")) 2;
     Message 0 (JsonObject (Data (Some "chat") (Some "r2") None
                              (Some "hi") "{}")) 3;
     Message 0 (JsonObject (Data (Some "join_room") (Some "r2")
                              (Some "alice") None "{}")) 4] in
  rooms (run initial evs).1 !! "r1" = Some [0] ∧
  rooms (run initial evs).1 !! "r2" = Some [1; 0] ∧
  member (run initial evs).1 0 "r1" ∧ member (run initial evs).1 0 "r2" ∧
  "r1" ≠ "r2".
Proof.
  intros evs.
  assert (rooms (run initial evs).1 !! "r1" = Some [0]) as H1 by reflexivity.
  assert (rooms (run initial evs).1 !! "r2" = Some [1; 0]) as H2 by reflexivity.
  repeat split; try done.
  - exists [0]. split; [done|]. rewrite !elem_of_cons. tauto.
  - exists [1; 0]. split; [done|]. rewrite !elem_of_cons. tauto.
Qed.

(** C1.  The single-room invariant is broken by the code: the
    [create_room] and [join_room] cases and the close handler leave the room
    [currentRoom] names before anything else, but the [chat], [start]/[draw]
    and shape cases assign the message's [roomId] to [currentRoom] without
    leaving.  Here connection 0 creates r1, connection 1 creates r2, 0 sends
    a [chat] naming r2 and then [join_room] for r2: the leave of that join
    runs on r2, where 0 is no member, so connection 1 is sent a [user_left]
    for a connection that was never there, 0 stays in r1, and 0 is added to
    r2. *)
Theorem C1_leave_runs_on_the_room_the_chat_named :
  let before :=
    [Connection; Connection;
     Message 0 (JsonObject (Data (Some "create_room") (Some "r1")
                              (Some "alice") None "{}")) 1;
     Message 1 (JsonObject (Data (Some "create_room") (Some "r2")
                              (Some "bob") None "{}")) 2;
     Message 0 (JsonObject (Data (Some "chat") (Some "r2") None
                              (Some "hi") "{}")) 3] in
  let join := Message 0 (JsonObject (Data (Some "join_room") (Some "r2")
                                       (Some "alice") None "{}")) 4 in
  let σ := (run initial before).1 in
  rooms σ !! "r1" = Some [0] ∧ rooms σ !! "r2" = Some [1] ∧
  sessions σ !! 0 = Some (Session (Some "r2") (Some "alice")) ∧
  rooms (step σ join).1 !! "r1" = Some [0] ∧
  rooms (step σ join).1 !! "r2" = Some [1; 0] ∧
  (step σ join).2
  = [(1, EUserLeft ["bob"] (Some "alice") "r2" 1 "alice left the room");
     (1, EUserJoined (Some []) ["bob"; "alice"] "alice" "r2" 2
           "alice joined the room: r2");
     (0, EUserJoined (Some []) ["bob"; "alice"] "alice" "r2" 2
           "alice joined the room: r2")].
Proof. by vm_compute. Qed.

(** ** Replay of the drawing log *)

Lemma log_event_not_clear r h ev :
  clears r ev = false → log_event r h ev = h ++ drawn r [ev].
Proof.
  intros Hc. destruct ev as [|ws [| |d] now|ws|ws]; cbn; try by rewrite app_nil_r.
  destruct (data_type d) as [type|] eqn:Htype; [|by rewrite app_nil_r].
  destruct (decide (data_roomId d = Some r)) as [Hr|Hr].
  - destruct (decide (type ∈ relayed)) as [Hrel|Hrel].
    + rewrite bool_decide_eq_true_2 by done.
      unfold relayed in Hrel. revert Hrel Htype.
      rewrite !elem_of_cons, elem_of_nil.
      intros [->|[->|[->|[->|[->|[->|[->|[]]]]]]]] Htype; cbn;
        try (rewrite bool_decide_eq_true_2;
               [done|split; [unfold drawing_types;
                             rewrite !elem_of_cons; tauto|done]]).
      * rewrite bool_decide_eq_false_2; [by rewrite app_nil_r|].
        unfold drawing_types. rewrite !elem_of_cons, elem_of_nil.
        intros [[H|[H|[H|[H|[H|[]]]]]] _]; discriminate H.
      * cbn in Hc. by rewrite bool_decide_eq_true_2 in Hc.
    + rewrite bool_decide_eq_false_2 by tauto.
      rewrite bool_decide_eq_false_2; [by rewrite app_nil_r|].
      intros [H _]. apply Hrel. revert H. unfold drawing_types, relayed.
      rewrite !elem_of_cons, !elem_of_nil. tauto.
  - rewrite !bool_decide_eq_false_2 by tauto. by rewrite app_nil_r.
Qed.

Lemma log_event_clear r h ev : clears r ev = true → log_event r h ev = [].
Proof.
  destruct ev as [|ws [| |d] now|ws|ws]; cbn; try done.
  intros [-> Hr]%bool_decide_eq_true. rewrite bool_decide_eq_true_2; [done|].
  split; [|done]. unfold relayed. rewrite !elem_of_cons. tauto.
Qed.

Lemma drawn_cons r ev evs : drawn r (ev :: evs) = drawn r [ev] ++ drawn r evs.
Proof.
  destruct ev as [|ws [| |d] now|ws|ws]; cbn; try done.
  destruct (data_type d); [|done]. by destruct (bool_decide _).
Qed.

Lemma replayed_since_last_clear r h evs :
  replayed r h evs = since_last_clear r h evs.
Proof.
  unfold since_last_clear. revert h.
  induction evs as [|ev evs IH]; intros h; cbn [replayed after_last_clear].
  - cbn. by rewrite app_nil_r.
  - rewrite IH. destruct (after_last_clear r evs) as [rest|]; [done|].
    destruct (clears r ev) eqn:Hc.
    + by rewrite (log_event_clear _ _ _ Hc).
    + rewrite (log_event_not_clear _ _ _ Hc), (drawn_cons r ev evs).
      by rewrite app_assoc.
Qed.

Lemma relayed_run σ evs :
  Forall (relayed_by σ) evs →
  rooms (run σ evs).1 = rooms σ ∧ users (run σ evs).1 = users σ ∧
  ∀ r h, drawings σ !! r = Some h →
         drawings (run σ evs).1 !! r = Some (replayed r h evs).
Proof.
  revert σ. induction evs as [|ev evs IH]; intros σ Hevs; [done|].
  apply Forall_cons in Hevs as [Hev Hevs].
  destruct ev as [|ws [| |d] now|ws|ws]; try done.
  destruct Hev as ((s & Hs)%elem_of_dom & type & Htype & Hrel).
  destruct (relayed_state ws s σ d now type Hs Htype Hrel)
    as (σ1 & out & Hstep & Hsess & Hr & Hu & _ & _ & Hd & _).
  cbn [run]. rewrite Hstep.
  assert (Forall (relayed_by σ1) evs) as Hevs1.
  { eapply Forall_impl; [exact Hevs|]. intros [|ws' [| |d'] now'|ws'|ws']; try done.
    cbn. rewrite Hsess, dom_insert_lookup_L by (by eexists). done. }
  destruct (IH σ1 Hevs1) as (IHr & IHu & IHd).
  destruct (run σ1 evs) as [σ2 out2]. cbn [fst] in *.
  split; [congruence|]. split; [congruence|].
  intros r h Hh. cbn [replayed log_event]. rewrite Htype. apply IHd.
  rewrite Hd. destruct (data_roomId d) as [r'|].
  - destruct (decide (r' = r)) as [->|Hne].
    + rewrite Hh, lookup_insert_eq. by rewrite bool_decide_eq_true_2.
    + rewrite bool_decide_eq_false_2 by (intros [_ ?]; congruence).
      destruct (drawings σ !! r'); [by rewrite lookup_insert_ne|done].
  - by rewrite bool_decide_eq_false_2 by (by intros [_ ?]).
Qed.

Lemma reachable_run σ evs : reachable σ → reachable (run σ evs).1.
Proof.
  intros [evs0 <-]. exists (evs0 ++ evs). by rewrite run_app.
Qed.

(** C2, amended.  Take a reachable state in which room [r] has the drawing
    log [h], let any number of [chat], [start], [draw], [text], [rectangle],
    [circle] and [clear] messages from connected clients follow (for any
    rooms), and then let an open connection that is not currently in [r] send
    [join_room] for [r].  The [user_joined] envelope is the one write the
    joiner receives, and its [drawings] are: the non-clear drawing events for
    [r] received after the last clear of [r], in the order received (so none
    if the clear came last); or, if no message cleared [r], the log [h]
    followed by the non-clear drawing events for [r] in the order received. *)
Theorem C2_joiner_receives_log_since_last_clear σ r h evs ws s d now name :
  reachable σ → drawings σ !! r = Some h → Forall (relayed_by σ) evs →
  sessions (run σ evs).1 !! ws = Some s → ws ∈ readyOpen (run σ evs).1 →
  currentRoom s ≠ Some r →
  data_type d = Some "join_room" → data_roomId d = Some r →
  data_username d = Some name → name ≠ EmptyString →
  ∃ roomWs roomUsers,
    rooms σ !! r = Some roomWs ∧ users σ !! r = Some roomUsers ∧
    ∀ e, (ws, e) ∈ (step (run σ evs).1 (Message ws (JsonObject d) now)).2 ↔
         e = EUserJoined (Some (since_last_clear r h evs)) (Set_add name roomUsers)
               name r (List.length (Set_add ws roomWs))
               (name +:+ " joined the room: " +:+ r).
Proof.
  intros Hreach Hh Hevs Hs Hopen Hcur Htype Hid Hname Hname'.
  destruct (relayed_run σ evs Hevs) as (Hr & Hu & Hd).
  pose proof (reachable_wf _ (reachable_run σ evs Hreach)) as Hwf1.
  destruct (rooms σ !! r) as [roomWs|] eqn:Hroom;
    [|apply (wf_drawings _ _ (reachable_wf _ Hreach)) in Hroom; congruence].
  pose proof (wf_key _ _ _ (reachable_wf _ Hreach) Hroom) as Hne.
  destruct (join_step (run σ evs).1 ws s d now r name roomWs)
    as (roomUsers & Husers & Hstep); try done; [by rewrite Hr|].
  exists roomWs, roomUsers. rewrite <- Hu. split; [done|]. split; [done|].
  intros e. rewrite Hstep. cbn [snd]. unfold joined_notice.
  rewrite (Hd r h Hh), replayed_since_last_clear, elem_of_app, fanout_elem. split.
  - intros [Hin|(-> & _)]; [by apply left_out_not_self in Hin|done].
  - intros ->. right. repeat split; try done. apply elem_of_Set_add. by left.
Qed.

Lemma C2_witness :
  let σ := (run initial
              [Connection; Connection;
               Message 0 (JsonObject (Data (Some "create_room") (Some "r1")
                                        (Some "alice") None "{}")) 1]).1 in
  let e1 := Data (Some "draw") (Some "r1") None None "{x:1}" in
  let e2 := Data (Some "clear") (Some "r1") None None "{}" in
  let e3 := Data (Some "rectangle") (Some "r1") None None "{x:3}" in
  let evs := [Message 0 (JsonObject e1) 2; Message 0 (JsonObject e2) 3;
              Message 0 (JsonObject e3) 4] in
  let d := Data (Some "join_room") (Some "r1") (Some "bob") None "{}" in
  since_last_clear "r1" [] evs = [e3] ∧
  ∀ e, (1, e) ∈ (step (run σ evs).1 (Message 1 (JsonObject d) 5)).2 ↔
       e = EUserJoined (Some [e3]) ["alice"; "bob"] "bob" "r1" 2
             "bob joined the room: r1".
Proof.
  intros σ e1 e2 e3 evs d. split; [by vm_compute|].
  assert (reachable σ) as Hreach by (by eexists).
  assert (Forall (relayed_by σ) evs) as Hevs.
  { repeat apply Forall_cons_2; try apply Forall_nil_2;
      (split; [by vm_compute|eexists; split; [reflexivity|]]);
      unfold relayed; rewrite !elem_of_cons; tauto. }
  assert (drawings σ !! "r1" = Some []) as Hh by reflexivity.
  assert (sessions (run σ evs).1 !! 1 = Some (Session None None)) as Hs
    by reflexivity.
  assert (1 ∈ readyOpen (run σ evs).1) as Hopen by (by vm_compute).
  assert (currentRoom (Session None None) ≠ Some "r1") as Hcur by done.
  assert ("bob" ≠ EmptyString) as Hname by done.
  destruct (C2_joiner_receives_log_since_last_clear σ "r1" [] evs 1
              (Session None None) d 5 "bob" Hreach Hh Hevs Hs Hopen Hcur
              eq_refl eq_refl eq_refl Hname)
    as (roomWs & roomUsers & Hr & Hu & Hout).
  assert (roomWs = [0]) as -> by (vm_compute in Hr; congruence).
  assert (roomUsers = ["alice"]) as -> by (vm_compute in Hu; congruence).
  exact Hout.
Defined.

(** C2 as stated fails when a clear lies between drawing events: with a
    [draw], a [clear] and a [rectangle] sent to r1 in this order, the room's
    prior non-clear drawing events are the [draw] and the [rectangle], and
    the joiner's [user_joined] carries the [rectangle] only. *)
Lemma C2_events_before_a_clear_are_not_replayed :
  let e1 := Data (Some "draw") (Some "r1") None None "{x:1}" in
  let e2 := Data (Some "clear") (Some "r1") None None "{}" in
  let e3 := Data (Some "rectangle") (Some "r1") None None "{x:3}" in
  let prior :=
    [Connection; Connection;
     Message 0 (JsonObject (Data (Some "create_room") (Some "r1")
                              (Some "alice") None "{}")) 1;
     Message 0 (JsonObject e1) 2; Message 0 (JsonObject e2) 3;
     Message 0 (JsonObject e3) 4] in
  let d := Data (Some "join_room") (Some "r1") (Some "bob") None "{}" in
  drawn "r1" prior = [e1; e3] ∧
  (step (run initial prior).1 (Message 1 (JsonObject d) 5)).2
  = [(0, EUserJoined (Some [e3]) ["alice"; "bob"] "bob" "r1" 2
           "bob joined the room: r1");
     (1, EUserJoined (Some [e3]) ["alice"; "bob"] "bob" "r1" 2
           "bob joined the room: r1")] ∧
  [e3] ≠ [e1; e3].
Proof. by vm_compute. Qed.

(** ** Further properties of the handlers *)

Lemma switch_relayed type :
  switch type = chat ∨ switch type = start_draw ∨ switch type = shape →
  type ∈ relayed.
Proof.
  unfold switch, relayed. rewrite !elem_of_cons.
  destruct (String.eqb_spec type "create_room"); [by intros [|[|]]|].
  destruct (String.eqb_spec type "join_room"); [by intros [|[|]]|].
  destruct (String.eqb_spec type "chat"); [tauto|].
  destruct (String.eqb_spec type "start"); [tauto|].
  destruct (String.eqb_spec type "draw"); [tauto|].
  destruct (String.eqb_spec type "text"); [tauto|].
  destruct (String.eqb_spec type "rectangle"); [tauto|].
  destruct (String.eqb_spec type "circle"); [tauto|].
  destruct (String.eqb_spec type "clear"); [tauto|].
  cbn. by intros [|[|]].
Qed.

(** The members and usernames after a message, in every case. *)
Inductive regrouped (ws : nat) (s : session) (σ : state) (d : data)
    : state → Prop :=
| regrouped_same σ' :
    rooms σ' = rooms σ → users σ' = users σ → regrouped ws s σ d σ'
| regrouped_create :
    regrouped ws s σ d
      (handleCreateRoom ws (currentRoom (adopted s d))
         (usernameServer (adopted s d)) (moved ws s σ d)).1.2
| regrouped_join :
    regrouped ws s σ d
      (handleJoinRoom ws (currentRoom (adopted s d))
         (usernameServer (adopted s d)) (moved ws s σ d)).1.2.

Lemma regrouped_step σ ws s d now :
  sessions σ !! ws = Some s →
  regrouped ws s σ d (step σ (Message ws (JsonObject d) now)).1.
Proof.
  intros Hs. rewrite (step_message _ _ _ _ _ Hs), exec_on_message_state.
  destruct (truthy (data_type d)) eqn:Ht;
    [|rewrite (on_message_try_untyped _ _ _ _ Ht); by apply regrouped_same].
  apply truthy_Some in Ht as (type & Htype & Hne).
  destruct (switch type) eqn:Hl.
  - rewrite (on_message_try_create _ _ _ _ now _ Hs Htype Hne Hl).
    pose proof (regrouped_create ws s σ d) as H.
    by destruct (handleCreateRoom _ _ _ _) as [[o σ'] out].
  - rewrite (on_message_try_join _ _ _ _ now _ Hs Htype Hne Hl).
    pose proof (regrouped_join ws s σ d) as H.
    by destruct (handleJoinRoom _ _ _ _) as [[o σ'] out].
  - rewrite (on_message_try_chat _ _ _ _ now _ Hs Htype Hne Hl).
    by apply regrouped_same.
  - rewrite (on_message_try_start_draw _ _ _ _ now _ Hs Htype Hne Hl).
    rewrite handleDrawing_eq. unfold retargeted. apply regrouped_same;
      (destruct (data_roomId d) as [r'|]; norm_state;
        [destruct (drawings σ !! r'); [destruct (truthy (data_type d))|]|]; done).
  - rewrite (on_message_try_shape _ _ _ _ now _ Hs Htype Hne Hl).
    rewrite handleShape_eq. unfold retargeted. apply regrouped_same;
      (destruct (data_roomId d) as [r'|]; norm_state;
        [destruct (drawings σ !! r')|]; done).
  - rewrite (on_message_try_default ws σ d now _ Htype Hne Hl).
    by apply regrouped_same.
Qed.

Section RoomInvariant.
Variable P : list nat → list string → Prop.
Hypothesis P_create : ∀ ws name, P [ws] [name].
Hypothesis P_join :
  ∀ ws name roomWs roomUsers,
    P roomWs roomUsers → P (Set_add ws roomWs) (Set_add name roomUsers).
Hypothesis P_leave :
  ∀ ws name roomWs roomUsers,
    P roomWs roomUsers →
    ¬ (Set_delete ws roomWs = [] ∧ Set_delete_js name roomUsers = []) →
    P (Set_delete ws roomWs) (Set_delete_js name roomUsers).

Lemma all_rooms_same σ σ' :
  rooms σ' = rooms σ → users σ' = users σ → all_rooms P σ → all_rooms P σ'.
Proof using Type.
  intros Hr Hu H r roomWs roomUsers. rewrite Hr, Hu. apply H.
Qed.

Lemma all_rooms_left ws s σ : all_rooms P σ → all_rooms P (left ws s σ).1.
Proof using P_leave.
  intros H.
  destruct (left_cases ws s σ)
    as [|r' ms us Hk Hne Hr Hu|r' ms us Hk Hne Hr Hu Hrem];
    cbn [fst]; [done|..]; intros r ms' us'; cbn.
  - intros [_ Hr']%lookup_delete_Some [_ Hu']%lookup_delete_Some. eauto.
  - destruct (decide (r' = r)) as [->|Hn].
    + rewrite !lookup_insert_eq. intros [= <-] [= <-]. eauto.
    + rewrite !lookup_insert_ne by done. apply H.
Qed.

Lemma all_rooms_moved ws s σ d : all_rooms P σ → all_rooms P (moved ws s σ d).
Proof using P_leave.
  intros H. apply (all_rooms_same (left ws s σ).1); [done..|].
  by apply all_rooms_left.
Qed.

Lemma all_rooms_addUserToRoom ws r name σ :
  all_rooms P σ → all_rooms P (addUserToRoom ws r name σ).1.2.
Proof using P_join.
  intros H. rewrite addUserToRoom_eq.
  destruct (rooms σ !! r) as [ms|] eqn:Hr; [|done]. cbv zeta.
  destruct (users σ !! r) as [us|] eqn:Hu; cbn [fst snd];
    intros r' roomWs roomUsers; cbn.
  - destruct (decide (r = r')) as [<-|Hn].
    + rewrite !lookup_insert_eq. intros [= <-] [= <-]. eauto.
    + rewrite !lookup_insert_ne by done. apply H.
  - destruct (decide (r = r')) as [<-|Hn]; [by rewrite Hu|].
    rewrite lookup_insert_ne by done. apply H.
Qed.

Lemma all_rooms_handleCreateRoom ws k u σ :
  all_rooms P σ → all_rooms P (handleCreateRoom ws k u σ).1.2.
Proof using P_create.
  intros H. rewrite handleCreateRoom_eq.
  destruct k as [r|]; [|done]. destruct u as [name|]; [|done].
  destruct (truthy (Some r) && truthy (Some name)); [|done].
  destruct (rooms σ !! r) eqn:Hr; [done|].
  intros r' roomWs roomUsers; cbn. destruct (decide (r = r')) as [<-|Hn].
  - rewrite !lookup_insert_eq. intros [= <-] [= <-]. apply P_create.
  - rewrite !lookup_insert_ne by done. apply H.
Qed.

Lemma all_rooms_handleJoinRoom ws k u σ :
  all_rooms P σ → all_rooms P (handleJoinRoom ws k u σ).1.2.
Proof using P_join.
  intros H. rewrite handleJoinRoom_eq.
  destruct k as [r|]; [|done]. destruct u as [name|]; [|done].
  destruct (truthy (Some r) && truthy (Some name)); [|done].
  destruct (rooms σ !! r) eqn:Hr; [|done]. by apply all_rooms_addUserToRoom.
Qed.

Lemma all_rooms_step σ ev : all_rooms P σ → all_rooms P (step σ ev).1.
Proof using P_create P_join P_leave.
  intros H. destruct ev as [|ws message now|ws|ws]; cbn [step]; try done.
  - destruct (sessions σ !! ws) as [s|] eqn:Hs; [|done].
    destruct message as [| |d];
      [by rewrite exec_on_message_state, (rejected_thrown _ _ _ σ)..|].
    pose proof (regrouped_step σ ws s d now Hs) as Hre.
    cbn [step] in Hre. rewrite Hs in Hre.
    destruct Hre as [σ' Hr Hu| |].
    + by apply (all_rooms_same σ).
    + by apply all_rooms_handleCreateRoom, all_rooms_moved.
    + by apply all_rooms_handleJoinRoom, all_rooms_moved.
  - destruct (sessions σ !! ws) as [s|] eqn:Hs; [|done].
    assert (sessions (not_open ws σ) !! ws = Some s) as Hs0 by done.
    unfold on_close, exec. rewrite (leave_current_eq _ _ _ Hs0). cbn [fst].
    apply (all_rooms_same (left ws s (not_open ws σ)).1); [done..|].
    by apply all_rooms_left.
Qed.

Lemma all_rooms_reachable σ : reachable σ → all_rooms P σ.
Proof using P_create P_join P_leave.
  intros [evs <-].
  assert (∀ σ0, all_rooms P σ0 → all_rooms P (run σ0 evs).1) as Hrun.
  { induction evs as [|ev evs IH]; intros σ0 H0; [done|]. cbn [run].
    pose proof (all_rooms_step σ0 ev H0) as H1.
    destruct (step σ0 ev) as [σ1 out1]. specialize (IH σ1 H1).
    by destruct (run σ1 evs). }
  apply Hrun. intros r roomWs roomUsers Hr. unfold initial in Hr.
  cbn [rooms] in Hr. by rewrite lookup_empty in Hr.
Qed.
End RoomInvariant.

(** X1.  In every reachable state the maps [rooms], [users] and [drawings]
    have the same room ids as keys, and the empty string is not one of
    them. *)
Theorem X1_maps_share_their_keys σ r :
  reachable σ →
  (is_Some (rooms σ !! r) ↔ is_Some (users σ !! r)) ∧
  (is_Some (rooms σ !! r) ↔ is_Some (drawings σ !! r)) ∧
  (is_Some (rooms σ !! r) → r ≠ EmptyString).
Proof.
  intros (H1 & H2 & H3 & _)%reachable_wf.
  rewrite <- !elem_of_dom, <- H1, <- H2. repeat split; try done.
  intros Hr ->. by apply H3.
Qed.

Lemma X1_witness :
  let σ := (run initial
              [Connection;
               Message 0 (JsonObject (Data (Some "create_room") (Some "r1")
                                        (Some "alice") None "{}")) 1]).1 in
  (is_Some (rooms σ !! "r1") ↔ is_Some (users σ !! "r1")) ∧
  (is_Some (rooms σ !! "r1") ↔ is_Some (drawings σ !! "r1")) ∧
  (is_Some (rooms σ !! "r1") → "r1" ≠ EmptyString).
Proof.
  intros σ. apply (X1_maps_share_their_keys σ "r1"). by eexists.
Defined.



Lemma NoDup_Set_add {A} `{EqDecision A} (x : A) s : NoDup s → NoDup (Set_add x s).
Proof.
  intros Hs. unfold Set_add. destruct (decide (x ∈ s)); [done|].
  apply NoDup_app. split; [done|]. split; [|apply NoDup_singleton].
  intros y Hy ->%list_elem_of_singleton. done.
Qed.

Lemma members_NoDup σ r roomWs :
  reachable σ → rooms σ !! r = Some roomWs → NoDup roomWs.
Proof.
  intros Hreach Hr.
  destruct (users σ !! r) as [roomUsers|] eqn:Hu;
    [|apply (wf_users _ _ (reachable_wf _ Hreach)) in Hu; congruence].
  revert r roomWs roomUsers Hr Hu.
  apply (all_rooms_reachable (λ ms _, NoDup ms)); try done.
  - intros ws name. apply NoDup_singleton.
  - intros ws name ms us. apply NoDup_Set_add.
  - intros ws name ms us Hms _. by apply NoDup_filter.
Qed.

Lemma fanout_recipients open roomWs skip e :
  (fanout open roomWs skip e).*1
  = filter (λ client, Some client ≠ skip ∧ client ∈ open) roomWs.
Proof.
  unfold fanout.
  induction (filter (λ client, Some client ≠ skip ∧ client ∈ open) roomWs)
    as [|c l IH]; [done|].
  cbn. by rewrite IH.
Qed.

(** X3.  In every reachable state, a [chat], [start], [draw], [text],
    [rectangle], [circle] or [clear] message that names a room of the
    registry is written exactly once to every member of that room that is
    open and is not the sender, whether or not the sender is a member, and to
    nobody else: members that are not open are skipped without affecting the
    others. *)
Theorem X3_relayed_once_to_each_other_open_member
    σ ws s d now type r roomWs :
  reachable σ → sessions σ !! ws = Some s →
  data_type d = Some type → type ∈ relayed →
  data_roomId d = Some r → rooms σ !! r = Some roomWs →
  NoDup (step σ (Message ws (JsonObject d) now)).2.*1 ∧
  ∀ c e, (c, e) ∈ (step σ (Message ws (JsonObject d) now)).2 ↔
    e = relay_envelope type s d now ∧
    c ∈ roomWs ∧ c ≠ ws ∧ c ∈ readyOpen σ.
Proof.
  intros Hreach Hs Htype Hrel Hid Hr.
  destruct (relayed_state ws s σ d now type Hs Htype Hrel)
    as (σ' & out & -> & _ & _ & _ & _ & _ & _ & _ & _ & Hout).
  rewrite Hid in Hout. cbn [Map_get] in Hout.
  rewrite (Hout (reachable_wf _ Hreach) roomWs Hr). cbn [snd]. split.
  - rewrite fanout_recipients. apply NoDup_filter.
    by apply (members_NoDup σ r).
  - intros c e. rewrite fanout_elem. split.
    + intros (-> & Hc & Hskip & Hopen). repeat split; try done. congruence.
    + intros (-> & Hc & Hne & Hopen). repeat split; try done. congruence.
Qed.

Lemma X3_witness :
  let σ := (run initial
              [Connection; Connection; Connection;
               Message 0 (JsonObject (Data (Some "create_room") (Some "r1")
                                        (Some "alice") None "{}")) 1;
               Message 1 (JsonObject (Data (Some "join_room") (Some "r1")
                                        (Some "bob") None "{}")) 2;
               Message 2 (JsonObject (Data (Some "join_room") (Some "r1")
                                        (Some "carol") None "{}")) 3;
               NotOpen 2]).1 in
  let d := Data (Some "draw") (Some "r1") None None "{x:1}" in
  NoDup (step σ (Message 0 (JsonObject d) 4)).2.*1 ∧
  ∀ c e, (c, e) ∈ (step σ (Message 0 (JsonObject d) 4)).2 ↔
    e = relay_envelope "draw" (Session (Some "r1") (Some "alice")) d 4 ∧
    c ∈ [0; 1; 2] ∧ c ≠ 0 ∧ c ∈ readyOpen σ.
Proof.
  intros σ d.
  apply (X3_relayed_once_to_each_other_open_member σ 0
           (Session (Some "r1") (Some "alice")) d 4 "draw" "r1" [0; 1; 2]);
    try reflexivity; [by eexists|].
  unfold relayed. rewrite !elem_of_cons. tauto.
Defined.

Lemma left_last ws s σ r roomWs roomUsers :
  currentRoom s = Some r → r ≠ EmptyString →
  rooms σ !! r = Some roomWs → users σ !! r = Some roomUsers →
  Set_delete ws roomWs = [] → Set_delete_js (usernameServer s) roomUsers = [] →
  left ws s σ = (without_room r σ, []).
Proof.
  intros Hk Hne Hr Hu H1 H2. unfold left, exec.
  rewrite Hk, (truthy_nonempty _ Hne), leaveRoom_eq, Hr, Hu. cbv zeta.
  by rewrite H1, H2.
Qed.

Lemma left_not_last ws s σ r roomWs roomUsers :
  currentRoom s = Some r → r ≠ EmptyString →
  rooms σ !! r = Some roomWs → users σ !! r = Some roomUsers →
  ¬ (Set_delete ws roomWs = [] ∧
     Set_delete_js (usernameServer s) roomUsers = []) →
  left ws s σ =
  (State (<[r := Set_delete ws roomWs]> (rooms σ))
         (<[r := Set_delete_js (usernameServer s) roomUsers]> (users σ))
         (drawings σ) (sessions σ) (readyOpen σ) (nextWs σ),
   fanout (readyOpen σ) (Set_delete ws roomWs) (Some ws)
     (left_notice ws (usernameServer s) r roomWs roomUsers)).
Proof.
  intros Hk Hne Hr Hu Hrem. unfold left, exec.
  rewrite Hk, (truthy_nonempty _ Hne), leaveRoom_eq, Hr, Hu. cbv zeta.
  destruct (Nat.eqb (List.length (Set_delete ws roomWs)) 0) eqn:H1;
    cbn [andb]; [|done].
  destruct (Nat.eqb (List.length (Set_delete_js (usernameServer s) roomUsers)) 0)
    eqn:H2; [|done].
  apply length_zero_nil in H1, H2. by destruct Hrem.
Qed.

Lemma close_step σ ws s :
  sessions σ !! ws = Some s →
  step σ (Close ws) =
  (with_sessions (delete ws) (left ws s (not_open ws σ)).1,
   (left ws s (not_open ws σ)).2).
Proof.
  intros Hs. cbn [step]. rewrite Hs.
  assert (sessions (not_open ws σ) !! ws = Some s) as Hs0 by done.
  unfold on_close, exec. by rewrite (leave_current_eq _ _ _ Hs0).
Qed.

Lemma fanout_self open ws e :
  ws ∈ open → fanout open [ws] None e = [(ws, e)].
Proof.
  intros Ho. unfold fanout. rewrite filter_cons, filter_nil.
  by rewrite decide_True.
Qed.

(** X4.  When a connection closes while its current room keeps a member or
    a username, the room stays in the registry with its drawing log
    untouched, the connection and its username are taken out of it, and
    [user_left] (with the remaining usernames and the remaining number of
    members) is written to every remaining member that is open; the closing
    connection itself is written nothing, and its closure variables are
    gone. *)
Theorem X4_close_notifies_the_remaining_members σ ws s r roomWs roomUsers :
  reachable σ → sessions σ !! ws = Some s → currentRoom s = Some r →
  rooms σ !! r = Some roomWs → users σ !! r = Some roomUsers →
  ¬ (Set_delete ws roomWs = [] ∧
     Set_delete_js (usernameServer s) roomUsers = []) →
  step σ (Close ws) =
  (State (<[r := Set_delete ws roomWs]> (rooms σ))
         (<[r := Set_delete_js (usernameServer s) roomUsers]> (users σ))
         (drawings σ) (delete ws (sessions σ))
         (readyOpen σ ∖ {[ws]}) (nextWs σ),
   fanout (readyOpen σ ∖ {[ws]}) (Set_delete ws roomWs) (Some ws)
     (left_notice ws (usernameServer s) r roomWs roomUsers)).
Proof.
  intros Hreach%reachable_wf Hs Hk Hr Hu Hrem.
  rewrite (close_step _ _ _ Hs).
  by rewrite (left_not_last ws s (not_open ws σ) r roomWs roomUsers Hk
                (wf_key _ _ _ Hreach Hr) Hr Hu Hrem).
Qed.

Lemma X4_witness :
  let σ := (run initial
              [Connection; Connection;
               Message 0 (JsonObject (Data (Some "create_room") (Some "r1")
                                        (Some "alice") None "{}")) 1;
               Message 1 (JsonObject (Data (Some "join_room") (Some "r1")
                                        (Some "bob") None "{}")) 2;
               Message 0 (JsonObject (Data (Some "draw") (Some "r1")
                                        None None "{x:1}")) 3]).1 in
  step σ (Close 1) =
  (State (<["r1" := [0]]> (rooms σ)) (<["r1" := ["alice"]]> (users σ))
         (drawings σ) (delete 1 (sessions σ))
         (readyOpen σ ∖ {[1]}) (nextWs σ),
   fanout (readyOpen σ ∖ {[1]}) [0] (Some 1)
     (left_notice 1 (Some "bob") "r1" [0; 1] ["alice"; "bob"])).
Proof.
  intros σ.
  apply (X4_close_notifies_the_remaining_members σ 1
           (Session (Some "r1") (Some "bob")) "r1" [0; 1] ["alice"; "bob"]);
    try reflexivity; [by eexists|].
  by intros [H _].
Defined.

(** X5.  When a connection closes and it was the last member of its current
    room, with its username the last one, the room is removed from [rooms],
    [users] and [drawings] (its drawing log is discarded), every other room
    is untouched, and nothing is written to any socket. *)
Theorem X5_close_of_the_last_member_removes_the_room σ ws s r roomWs roomUsers :
  reachable σ → sessions σ !! ws = Some s → currentRoom s = Some r →
  rooms σ !! r = Some roomWs → users σ !! r = Some roomUsers →
  Set_delete ws roomWs = [] → Set_delete_js (usernameServer s) roomUsers = [] →
  step σ (Close ws) =
  (State (delete r (rooms σ)) (delete r (users σ)) (delete r (drawings σ))
         (delete ws (sessions σ)) (readyOpen σ ∖ {[ws]}) (nextWs σ),
   []).
Proof.
  intros Hreach%reachable_wf Hs Hk Hr Hu H1 H2.
  rewrite (close_step _ _ _ Hs).
  by rewrite (left_last ws s (not_open ws σ) r roomWs roomUsers Hk
                (wf_key _ _ _ Hreach Hr) Hr Hu H1 H2).
Qed.

Lemma X5_witness :
  let σ := (run initial
              [Connection;
               Message 0 (JsonObject (Data (Some "create_room") (Some "r1")
                                        (Some "alice") None "{}")) 1;
               Message 0 (JsonObject (Data (Some "draw") (Some "r1")
                                        None None "{x:1}")) 2]).1 in
  step σ (Close 0) =
  (State (delete "r1" (rooms σ)) (delete "r1" (users σ))
         (delete "r1" (drawings σ)) (delete 0 (sessions σ))
         (readyOpen σ ∖ {[0]}) (nextWs σ),
   []).
Proof.
  intros σ.
  apply (X5_close_of_the_last_member_removes_the_room σ 0
           (Session (Some "r1") (Some "alice")) "r1" [0] ["alice"]);
    try reflexivity. by eexists.
Defined.

(** X6.  When a connection closes while [currentRoom] is unset or empty, or
    names no room of the registry, no room changes and nothing is written to
    any socket: only the connection's own closure variables and open state
    go away. *)
Theorem X6_close_without_a_room_changes_no_room σ ws s :
  sessions σ !! ws = Some s →
  truthy (currentRoom s) = false ∨ Map_get (rooms σ) (currentRoom s) = None →
  step σ (Close ws) =
  (State (rooms σ) (users σ) (drawings σ) (delete ws (sessions σ))
         (readyOpen σ ∖ {[ws]}) (nextWs σ),
   []).
Proof.
  intros Hs Hq. rewrite (close_step _ _ _ Hs).
  by rewrite (left_quiet ws s (not_open ws σ)).
Qed.

Lemma X6_witness :
  let σ := (run initial
              [Connection; Connection;
               Message 0 (JsonObject (Data (Some "create_room") (Some "r1")
                                        (Some "alice") None "{}")) 1;
               Message 1 (JsonObject (Data (Some "join_room") (Some "r9")
                                        (Some "bob") None "{}")) 2]).1 in
  step σ (Close 1) =
  (State (rooms σ) (users σ) (drawings σ) (delete 1 (sessions σ))
         (readyOpen σ ∖ {[1]}) (nextWs σ),
   []).
Proof.
  intros σ.
  apply (X6_close_without_a_room_changes_no_room σ 1
           (Session (Some "r9") (Some "bob")));
    [reflexivity|by right].
Defined.

(** X7.  A [create_room] with a room id and a username, for an id that is
    not in the registry, from an open connection that has no room to leave:
    the registry gains exactly that room, with the creator as only member,
    its username as only username and an empty drawing log; the creator's
    closure variables take the id and the username; and the one write is
    [user_joined] to the creator, with that username list, a count of 1 and no
    drawings. *)
Theorem X7_create_room_makes_a_room_of_one σ ws s d now r name :
  sessions σ !! ws = Some s →
  truthy (currentRoom s) = false ∨ Map_get (rooms σ) (currentRoom s) = None →
  data_type d = Some "create_room" →
  data_roomId d = Some r → r ≠ EmptyString →
  data_username d = Some name → name ≠ EmptyString →
  rooms σ !! r = None → ws ∈ readyOpen σ →
  step σ (Message ws (JsonObject d) now) =
  (State (<[r := [ws]]> (rooms σ)) (<[r := [name]]> (users σ))
         (<[r := []]> (drawings σ))
         (<[ws := Session (Some r) (Some name)]> (sessions σ))
         (readyOpen σ) (nextWs σ),
   [(ws, EUserJoined (Some []) [name] name r 1
           (name +:+ " joined the room: " +:+ r))]).
Proof.
  intros Hs Hq Htype Hr Hne Hu Hne' Hroom Hopen.
  assert (left ws s σ = (σ, [])) as Hleft by (by apply left_quiet).
  rewrite (create_step σ ws s d now r name Hs Htype Hr Hne Hu Hne')
    by (by rewrite Hleft).
  rewrite Hleft. cbn [fst snd app]. by rewrite fanout_self.
Qed.

Lemma X7_witness :
  let σ := (run initial [Connection]).1 in
  let d := Data (Some "create_room") (Some "r1") (Some "alice") None "{}" in
  step σ (Message 0 (JsonObject d) 1) =
  (State (<["r1" := [0]]> (rooms σ)) (<["r1" := ["alice"]]> (users σ))
         (<["r1" := []]> (drawings σ))
         (<[0 := Session (Some "r1") (Some "alice")]> (sessions σ))
         (readyOpen σ) (nextWs σ),
   [(0, EUserJoined (Some []) ["alice"] "alice" "r1" 1
          "alice joined the room: r1")]).
Proof.
  intros σ d.
  apply (X7_create_room_makes_a_room_of_one σ 0 (Session None None) d 1
           "r1" "alice");
    try reflexivity; try done; try (by left); by vm_compute.
Defined.

(** X8.  A [create_room] or [join_room] that lacks a room id or a username
    (absent or empty), from an open connection whose [currentRoom] is unset,
    changes nothing and is answered with an [error] envelope whose text is
    "Missing room ID or username"; the text is under the key [message] for
    [create_room] and under the key [msg] for [join_room]. *)
Theorem X8_missing_room_id_or_username σ ws s d now type :
  sessions σ !! ws = Some s → truthy (currentRoom s) = false →
  truthy (data_roomId d) && truthy (data_username d) = false →
  data_type d = Some type → type = "create_room" ∨ type = "join_room" →
  ws ∈ readyOpen σ →
  step σ (Message ws (JsonObject d) now) =
  (σ, [(ws, if String.eqb type "create_room"
            then EError "Missing room ID or username"
            else EErrorMsg "Missing room ID or username")]).
Proof.
  intros Hs Hk Hd Htype Hcase Hopen.
  rewrite (step_message _ _ _ _ _ Hs).
  assert (adopted s d = s) as Had by (unfold adopted; by rewrite Hd).
  assert (left ws s σ = (σ, [])) as Hleft by (apply left_quiet; auto).
  assert (moved ws s σ d = σ) as Hmoved.
  { unfold moved. rewrite Had, Hleft. unfold with_sessions.
    cbn [fst]. rewrite insert_id by done. by destruct σ. }
  destruct Hcase as [-> | ->].
  - pose proof (on_message_try_create ws s σ d now "create_room" Hs Htype
                  ltac:(done) eq_refl) as Heq.
    rewrite Had, Hmoved, Hleft, handleCreateRoom_eq in Heq.
    rewrite (on_message_returned _ _ _ _ tt σ
               (send_out (readyOpen σ) ws (EError "Missing room ID or username"))).
    + by rewrite send_out_open.
    + rewrite Heq. destruct (currentRoom s) as [[|a r]|]; try done;
        by destruct (usernameServer s) as [[|b u]|].
  - pose proof (on_message_try_join ws s σ d now "join_room" Hs Htype
                  ltac:(done) eq_refl) as Heq.
    rewrite Had, Hmoved, Hleft, handleJoinRoom_eq in Heq.
    rewrite (on_message_returned _ _ _ _ tt σ
               (send_out (readyOpen σ) ws
                  (EErrorMsg "Missing room ID or username"))).
    + by rewrite send_out_open.
    + rewrite Heq. destruct (currentRoom s) as [[|a r]|]; try done;
        by destruct (usernameServer s) as [[|b u]|].
Qed.

Lemma X8_witness :
  let σ := (run initial [Connection]).1 in
  let d := Data (Some "join_room") (Some "r1") None None "{}" in
  step σ (Message 0 (JsonObject d) 1) =
  (σ, [(0, EErrorMsg "Missing room ID or username")]).
Proof.
  intros σ d.
  apply (X8_missing_room_id_or_username σ 0 (Session None None) d 1 "join_room");
    try reflexivity; try done; try (by right); by vm_compute.
Defined.

(** X9.  In a reachable state, let [ws] be the only member of room [R], with
    its username the only one of [R].  A [create_room] from it that names [R]
    again (with a username) first empties and deletes [R] and then makes it
    anew: afterwards [R] has [ws] as only member, the new username as only
    username, and an empty drawing log, whatever the log held before; the
    one write is [user_joined] to [ws] with no drawings. *)
Theorem X9_sole_member_recreating_its_room_empties_the_log
    σ ws d now R name name' :
  reachable σ →
  sessions σ !! ws = Some (Session (Some R) (Some name)) →
  rooms σ !! R = Some [ws] → users σ !! R = Some [name] →
  data_type d = Some "create_room" → data_roomId d = Some R →
  data_username d = Some name' → name' ≠ EmptyString →
  ws ∈ readyOpen σ →
  step σ (Message ws (JsonObject d) now) =
  (State (<[R := [ws]]> (rooms σ)) (<[R := [name']]> (users σ))
         (<[R := []]> (drawings σ))
         (<[ws := Session (Some R) (Some name')]> (sessions σ))
         (readyOpen σ) (nextWs σ),
   [(ws, EUserJoined (Some []) [name'] name' R 1
           (name' +:+ " joined the room: " +:+ R))]).
Proof.
  intros Hreach%reachable_wf Hs Hroom Husers Htype Hid Hname Hname' Hopen.
  pose proof (wf_key _ _ _ Hreach Hroom) as HR.
  assert (left ws (Session (Some R) (Some name)) σ = (without_room R σ, []))
    as Hleft.
  { apply (left_last _ _ _ R [ws] [name]); try done;
      cbn [usernameServer Set_delete_js]; unfold Set_delete;
      rewrite filter_cons, filter_nil;
      by rewrite decide_False by (intros H; by apply H). }
  rewrite (create_step σ ws _ d now R name' Hs Htype Hid HR Hname Hname')
    by (rewrite Hleft; apply lookup_delete_eq).
  rewrite Hleft. cbn [fst snd app without_room rooms users drawings].
  by rewrite !insert_delete_eq, fanout_self.
Qed.

Lemma X9_witness :
  let σ := (run initial
              [Connection;
               Message 0 (JsonObject (Data (Some "create_room") (Some "r1")
                                        (Some "alice") None "{}")) 1;
               Message 0 (JsonObject (Data (Some "draw") (Some "r1")
                                        None None "{x:1}")) 2]).1 in
  let d := Data (Some "create_room") (Some "r1") (Some "alice") None "{}" in
  step σ (Message 0 (JsonObject d) 3) =
  (State (<["r1" := [0]]> (rooms σ)) (<["r1" := ["alice"]]> (users σ))
         (<["r1" := []]> (drawings σ))
         (<[0 := Session (Some "r1") (Some "alice")]> (sessions σ))
         (readyOpen σ) (nextWs σ),
   [(0, EUserJoined (Some []) ["alice"] "alice" "r1" 1
          "alice joined the room: r1")]).
Proof.
  intros σ d.
  apply (X9_sole_member_recreating_its_room_empties_the_log σ 0 d 3
           "r1" "alice" "alice");
    try reflexivity; try done; try (by eexists); by vm_compute.
Defined.

(** X10.  No event changes the closure variables of a connection other than
    the one whose handler it runs: a message, a close or a new connection of
    one socket leaves [currentRoom] and [usernameServer] of every other
    socket as they were. *)
Theorem X10_other_connections_keep_their_variables σ ev c :
  actor σ ev ≠ c → sessions (step σ ev).1 !! c = sessions σ !! c.
Proof.
  intros Hc. destruct ev as [|ws message now|ws|ws]; cbn [actor] in Hc.
  - cbn. by rewrite lookup_insert_ne.
  - destruct (sessions σ !! ws) as [s|] eqn:Hs; [|by cbn [step]; rewrite Hs].
    destruct message as [| |d];
      [rewrite (step_message _ _ _ _ _ Hs), (on_message_thrown _ _ _ _ σ []);
       done..|].
    destruct (routed_step σ ws s d now Hs)
      as [| |type Htype Hl|type Htype Hl|type σ' Htype Hne Hl Hrooms Hsess];
      try done.
    + rewrite handleCreateRoom_sessions. unfold moved. norm_state.
      by rewrite lookup_insert_ne, (proj1 (left_sessions ws s σ)).
    + rewrite handleJoinRoom_sessions. unfold moved. norm_state.
      by rewrite lookup_insert_ne, (proj1 (left_sessions ws s σ)).
    + by rewrite Hsess, lookup_insert_ne.
  - done.
  - destruct (sessions σ !! ws) as [s|] eqn:Hs; [|by cbn [step]; rewrite Hs].
    rewrite (close_step _ _ _ Hs). norm_state.
    by rewrite lookup_delete_ne, (proj1 (left_sessions ws s (not_open ws σ))).
Qed.

Lemma X10_witness :
  let σ := (run initial
              [Connection; Connection;
               Message 0 (JsonObject (Data (Some "create_room") (Some "r1")
                                        (Some "alice") None "{}")) 1]).1 in
  let ev := Message 1 (JsonObject (Data (Some "join_room") (Some "r1")
                                     (Some "bob") None "{}")) 2 in
  sessions (step σ ev).1 !! 0 = sessions σ !! 0.
Proof.
  intros σ ev. by apply (X10_other_connections_keep_their_variables σ ev 0).
Defined.

(** X11.  In a reachable state, let [ws] be in room [r1], which keeps a
    member or a username without it, and let it send [join_room] for another
    room [r2] of the registry.  Then [ws] and its old username are taken out
    of [r1], [ws] is added after the members of [r2] and the new username
    after its usernames, no drawing log changes, and what is written is
    first [user_left] to the open remaining members of [r1] and then
    [user_joined], with the log of [r2], to the open members of [r2], the
    joiner included. *)
Theorem X11_switching_rooms_leaves_then_joins
    σ ws s d now r1 ms1 us1 r2 ms2 us2 name :
  reachable σ → sessions σ !! ws = Some s → currentRoom s = Some r1 →
  rooms σ !! r1 = Some ms1 → users σ !! r1 = Some us1 →
  ¬ (Set_delete ws ms1 = [] ∧ Set_delete_js (usernameServer s) us1 = []) →
  r1 ≠ r2 → rooms σ !! r2 = Some ms2 → users σ !! r2 = Some us2 →
  data_type d = Some "join_room" → data_roomId d = Some r2 →
  data_username d = Some name → name ≠ EmptyString →
  step σ (Message ws (JsonObject d) now) =
  (State (<[r2 := Set_add ws ms2]> (<[r1 := Set_delete ws ms1]> (rooms σ)))
         (<[r2 := Set_add name us2]>
            (<[r1 := Set_delete_js (usernameServer s) us1]> (users σ)))
         (drawings σ)
         (<[ws := Session (Some r2) (Some name)]> (sessions σ))
         (readyOpen σ) (nextWs σ),
   fanout (readyOpen σ) (Set_delete ws ms1) (Some ws)
     (left_notice ws (usernameServer s) r1 ms1 us1) ++
   fanout (readyOpen σ) (Set_add ws ms2) None
     (joined_notice σ ws r2 name ms2 us2)).
Proof.
  intros Hreach%reachable_wf Hs Hk Hr1 Hu1 Hrem Hne Hr2 Hu2 Htype Hid Hname Hname'.
  destruct (join_step σ ws s d now r2 name ms2)
    as (us2' & Hu2' & ->); try done.
  { by apply (wf_key _ _ _ Hreach Hr2). }
  { congruence. }
  assert (us2' = us2) as -> by congruence.
  by rewrite (left_not_last ws s σ r1 ms1 us1 Hk
                (wf_key _ _ _ Hreach Hr1) Hr1 Hu1 Hrem).
Qed.

Lemma X11_witness :
  let σ := (run initial
              [Connection; Connection; Connection;
               Message 0 (JsonObject (Data (Some "create_room") (Some "r1")
                                        (Some "alice") None "{}")) 1;
               Message 1 (JsonObject (Data (Some "join_room") (Some "r1")
                                        (Some "bob") None "{}")) 2;
               Message 2 (JsonObject (Data (Some "create_room") (Some "r2")
                                        (Some "carol") None "{}")) 3]).1 in
  let d := Data (Some "join_room") (Some "r2") (Some "bobby") None "{}" in
  step σ (Message 1 (JsonObject d) 4) =
  (State (<["r2" := Set_add 1 [2]]> (<["r1" := Set_delete 1 [0; 1]]> (rooms σ)))
         (<["r2" := Set_add "bobby" ["carol"]]>
            (<["r1" := Set_delete_js (Some "bob") ["alice"; "bob"]]> (users σ)))
         (drawings σ)
         (<[1 := Session (Some "r2") (Some "bobby")]> (sessions σ))
         (readyOpen σ) (nextWs σ),
   fanout (readyOpen σ) (Set_delete 1 [0; 1]) (Some 1)
     (left_notice 1 (Some "bob") "r1" [0; 1] ["alice"; "bob"]) ++
   fanout (readyOpen σ) (Set_add 1 [2]) None
     (joined_notice σ 1 "r2" "bobby" [2] ["carol"])).
Proof.
  intros σ d.
  apply (X11_switching_rooms_leaves_then_joins σ 1
           (Session (Some "r1") (Some "bob")) d 4
           "r1" [0; 1] ["alice"; "bob"] "r2" [2] ["carol"] "bobby");
    try reflexivity; try done; [by eexists|].
  by intros [H _].
Defined.

(** X12.  Whatever [leaveRoom] writes when [ws], known as [name], leaves a
    room of the registry goes to an open member of that room other than
    [ws], and is a [user_left] envelope whose user list is the room's
    usernames without [name] (so [name] is missing from it even when another
    member joined under the same name) and whose count is the number of
    members that remain. *)
Theorem X12_user_left_lists_the_other_usernames
    σ ws name r roomWs roomUsers c e :
  rooms σ !! r = Some roomWs → users σ !! r = Some roomUsers →
  (c, e) ∈ (leaveRoom ws (Some r) (Some name) σ).2 →
  c ≠ ws ∧ c ∈ roomWs ∧ c ∈ readyOpen σ ∧
  ∃ us, e = EUserLeft us (Some name) r (List.length (Set_delete ws roomWs))
              (name +:+ " left the room") ∧
        (name ∉ us) ∧ ∀ x, x ∈ us ↔ x ∈ roomUsers ∧ x ≠ name.
Proof.
  intros Hr Hu. rewrite leaveRoom_eq, Hr, Hu. cbv zeta.
  destruct (_ && _); cbn [snd]; [by intros ?%elem_of_nil|].
  intros (-> & Hc & Hskip & Hopen)%fanout_elem.
  apply elem_of_Set_delete in Hc as [Hne Hc].
  repeat split; try done.
  exists (Set_delete name roomUsers). split; [done|]. split.
  - intros [? _]%elem_of_Set_delete. done.
  - intros x. rewrite elem_of_Set_delete. tauto.
Qed.

Lemma X12_witness :
  let σ := (run initial
              [Connection; Connection;
               Message 0 (JsonObject (Data (Some "create_room") (Some "r1")
                                        (Some "sam") None "{}")) 1;
               Message 1 (JsonObject (Data (Some "join_room") (Some "r1")
                                        (Some "sam") None "{}")) 2]).1 in
  let e := EUserLeft [] (Some "sam") "r1" 1 "sam left the room" in
  (0, e) ∈ (leaveRoom 1 (Some "r1") (Some "sam") σ).2 ∧
  (0 ≠ 1 ∧ 0 ∈ [0; 1] ∧ 0 ∈ readyOpen σ ∧
   ∃ us, e = EUserLeft us (Some "sam") "r1" (List.length (Set_delete 1 [0; 1]))
               ("sam" +:+ " left the room") ∧
         ("sam" ∉ us) ∧ ∀ x, x ∈ us ↔ x ∈ ["sam"] ∧ x ≠ "sam").
Proof.
  intros σ e.
  assert ((0, e) ∈ (leaveRoom 1 (Some "r1") (Some "sam") σ).2) as Hin.
  { assert ((leaveRoom 1 (Some "r1") (Some "sam") σ).2 = [(0, e)]) as ->
      by (by vm_compute).
    by apply list_elem_of_singleton. }
  split; [exact Hin|].
  by apply (X12_user_left_lists_the_other_usernames σ 1 "sam" "r1"
              [0; 1] ["sam"] 0 e).
Defined.

Lemma left_drawings_cases ws s σ r :
  drawings (left ws s σ).1 !! r = drawings σ !! r ∨
  drawings (left ws s σ).1 !! r = None.
Proof.
  destruct (left_cases ws s σ) as [|r' ? ? Hk|r' ? ? Hk]; cbn; [by left| |by left].
  destruct (decide (r' = r)) as [->|Hn].
  - right. apply lookup_delete_eq.
  - left. by apply lookup_delete_ne.
Qed.

Lemma handleCreateRoom_drawings ws k u σ r :
  drawings (handleCreateRoom ws k u σ).1.2 !! r = drawings σ !! r ∨
  drawings (handleCreateRoom ws k u σ).1.2 !! r = Some [].
Proof.
  rewrite handleCreateRoom_eq.
  destruct k as [r'|]; [|by left]. destruct u as [name|]; [|by left].
  destruct (truthy (Some r') && truthy (Some name)); [|by left].
  destruct (rooms σ !! r'); [by left|]. cbn.
  destruct (decide (r' = r)) as [->|Hn].
  - right. apply lookup_insert_eq.
  - left. by apply lookup_insert_ne.
Qed.

Lemma handleJoinRoom_drawings ws k u σ :
  drawings (handleJoinRoom ws k u σ).1.2 = drawings σ.
Proof.
  rewrite handleJoinRoom_eq.
  destruct k as [r'|]; [|done]. destruct u as [name|]; [|done].
  destruct (truthy (Some r') && truthy (Some name)); [|done].
  destruct (rooms σ !! r'); [|done]. rewrite addUserToRoom_eq.
  destruct (rooms σ !! r'); [|done]. cbv zeta. by destruct (users σ !! r').
Qed.

(** X13.  Across any one event, the drawing log of a room that is in the
    registry before and after is either unchanged, or empty, or the old log
    with the event's own message for that room appended at its end: a log
    is never reordered, truncated in part, or extended by anything but the
    message being handled. *)
Theorem X13_log_is_kept_appended_to_or_emptied σ ev r h h' :
  drawings σ !! r = Some h → drawings (step σ ev).1 !! r = Some h' →
  h' = h ∨ h' = [] ∨
  ∃ ws d now, ev = Message ws (JsonObject d) now ∧
              data_roomId d = Some r ∧ h' = h ++ [d].
Proof.
  intros Hh Hh'. destruct ev as [|ws message now|ws|ws].
  - cbn in Hh'. left. congruence.
  - destruct (sessions σ !! ws) as [s|] eqn:Hs;
      [|cbn [step] in Hh'; rewrite Hs in Hh'; left; cbn in Hh'; congruence].
    rewrite (step_message _ _ _ _ _ Hs), exec_on_message_state in Hh'.
    destruct (rejected message) eqn:Hrej.
    { rewrite (rejected_thrown _ _ _ _ Hrej) in Hh'. left. cbn in Hh'. congruence. }
    destruct message as [| |d]; try done. cbn [rejected] in Hrej.
    apply negb_false_iff, truthy_Some in Hrej as (type & Htype & Hne).
    assert (drawings (moved ws s σ d) !! r = Some h ∨
            drawings (moved ws s σ d) !! r = None) as Hmoved.
    { unfold moved. norm_state.
      destruct (left_drawings_cases ws s σ r) as [-> | ->]; auto. }
    destruct (switch type) eqn:Hl.
    + rewrite (on_message_try_create _ _ _ _ now _ Hs Htype Hne Hl) in Hh'.
      destruct (handleCreateRoom_drawings ws (currentRoom (adopted s d))
                  (usernameServer (adopted s d)) (moved ws s σ d) r) as [He|He];
        destruct (handleCreateRoom _ _ _ _) as [[o σ'] out]; cbn in *;
        rewrite He in Hh'; [|right; left; congruence].
      destruct Hmoved as [Hm|Hm]; rewrite Hm in Hh'; [left|]; congruence.
    + rewrite (on_message_try_join _ _ _ _ now _ Hs Htype Hne Hl) in Hh'.
      pose proof (handleJoinRoom_drawings ws (currentRoom (adopted s d))
                    (usernameServer (adopted s d)) (moved ws s σ d)) as He.
      destruct (handleJoinRoom _ _ _ _) as [[o σ'] out]; cbn in *.
      rewrite He in Hh'.
      destruct Hmoved as [Hm|Hm]; rewrite Hm in Hh'; [left|]; congruence.
    + rewrite (on_message_try_chat _ _ _ _ now _ Hs Htype Hne Hl) in Hh'.
      unfold retargeted in Hh'. norm_state. left. congruence.
    + rewrite (on_message_try_start_draw _ _ _ _ now _ Hs Htype Hne Hl) in Hh'.
      rewrite handleDrawing_eq in Hh'. unfold retargeted in Hh'. norm_state.
      destruct (data_roomId d) as [r'|] eqn:Hid; norm_state;
        [|left; congruence].
      destruct (drawings σ !! r') as [drawing|] eqn:Hd; norm_state;
        [|left; congruence].
      destruct (truthy (data_type d)); norm_state; [|left; congruence].
      destruct (decide (r' = r)) as [->|Hn].
      * rewrite lookup_insert_eq in Hh'. right. right.
        exists ws, d, now. repeat split; [done|congruence].
      * rewrite lookup_insert_ne in Hh' by done. left. congruence.
    + rewrite (on_message_try_shape _ _ _ _ now _ Hs Htype Hne Hl) in Hh'.
      rewrite handleShape_eq in Hh'. unfold retargeted in Hh'. norm_state.
      destruct (data_roomId d) as [r'|] eqn:Hid; norm_state;
        [|left; congruence].
      destruct (drawings σ !! r') as [drawing|] eqn:Hd; norm_state;
        [|left; congruence].
      destruct (decide (r' = r)) as [->|Hn].
      * rewrite lookup_insert_eq in Hh'.
        destruct (bool_decide _); [right; right|right; left; congruence].
        exists ws, d, now. repeat split; [done|congruence].
      * rewrite lookup_insert_ne in Hh' by done. left. congruence.
    + rewrite (on_message_try_default ws σ d now _ Htype Hne Hl) in Hh'.
      left. cbn in Hh'. congruence.
  - cbn in Hh'. left. congruence.
  - destruct (sessions σ !! ws) as [s|] eqn:Hs;
      [|cbn [step] in Hh'; rewrite Hs in Hh'; left; cbn in Hh'; congruence].
    rewrite (close_step _ _ _ Hs) in Hh'. norm_state.
    destruct (left_drawings_cases ws s (not_open ws σ) r) as [He|He];
      rewrite He in Hh'; [left|]; cbn in Hh'; congruence.
Qed.

Lemma X13_witness :
  let σ := (run initial
              [Connection;
               Message 0 (JsonObject (Data (Some "create_room") (Some "r1")
                                        (Some "alice") None "{}")) 1;
               Message 0 (JsonObject (Data (Some "draw") (Some "r1")
                                        None None "{x:1}")) 2]).1 in
  let e1 := Data (Some "draw") (Some "r1") None None "{x:1}" in
  let e2 := Data (Some "circle") (Some "r1") None None "{x:2}" in
  let ev := Message 0 (JsonObject e2) 3 in
  [e1; e2] = [e1] ∨ [e1; e2] = [] ∨
  ∃ ws d now, ev = Message ws (JsonObject d) now ∧
              data_roomId d = Some "r1" ∧ [e1; e2] = [e1] ++ [d].
Proof.
  intros σ e1 e2 ev.
  apply (X13_log_is_kept_appended_to_or_emptied σ ev "r1" [e1] [e1; e2]);
    reflexivity.
Defined.

(** X14.  A [chat], [start], [draw], [text], [rectangle], [circle] or
    [clear] message changes no room's members and no room's usernames, and
    leaves the drawing log of every room other than the one it names as it
    was. *)
Theorem X14_relayed_message_touches_one_log_only σ ws s d now type :
  sessions σ !! ws = Some s → data_type d = Some type → type ∈ relayed →
  rooms (step σ (Message ws (JsonObject d) now)).1 = rooms σ ∧
  users (step σ (Message ws (JsonObject d) now)).1 = users σ ∧
  ∀ r, data_roomId d ≠ Some r →
       drawings (step σ (Message ws (JsonObject d) now)).1 !! r
       = drawings σ !! r.
Proof.
  intros Hs Htype Hrel.
  destruct (relayed_state ws s σ d now type Hs Htype Hrel)
    as (σ' & out & -> & _ & Hr & Hu & _ & _ & Hd & _).
  cbn [fst]. repeat split; try done.
  intros r Hne. rewrite Hd. destruct (data_roomId d) as [r'|]; [|done].
  destruct (drawings σ !! r'); [|done].
  rewrite lookup_insert_ne; [done|congruence].
Qed.

Lemma X14_witness :
  let σ := (run initial
              [Connection; Connection;
               Message 0 (JsonObject (Data (Some "create_room") (Some "r1")
                                        (Some "alice") None "{}")) 1;
               Message 1 (JsonObject (Data (Some "create_room") (Some "r2")
                                        (Some "bob") None "{}")) 2]).1 in
  let d := Data (Some "clear") (Some "r2") None None "{}" in
  rooms (step σ (Message 0 (JsonObject d) 3)).1 = rooms σ ∧
  users (step σ (Message 0 (JsonObject d) 3)).1 = users σ ∧
  ∀ r, data_roomId d ≠ Some r →
       drawings (step σ (Message 0 (JsonObject d) 3)).1 !! r
       = drawings σ !! r.
Proof.
  intros σ d.
  apply (X14_relayed_message_touches_one_log_only σ 0
           (Session (Some "r1") (Some "alice")) d 3 "clear");
    try reflexivity.
  unfold relayed. rewrite !elem_of_cons. tauto.
Defined.

